(** * The attendance submission pipeline of [src/main.py]

    A shallow embedding of [submit_attendance]: the accuracy gate, the
    optional geofence check, the construction of the record, the two sinks
    (the Apps Script forwarder and the document store) and the response.

    Python's [float] is IEEE-754 binary64 and is modelled by the kernel's
    primitive floats.  Calls that leave the repository ([requests.post],
    [create_document], [datetime.now], [os.environ]) are read from a [World];
    functions of Python's standard library that have no counterpart here
    ([float(str)], [math.sin], [strftime], float formatting) are the fields of
    a [Runtime].  The calls to the two sinks are recorded in a log, so that
    "no sink was called" is a statement about that log. *)

From Stdlib Require Import ZArith Uint63 Floats Reals Lra.
From stdpp Require Import base option strings gmap pretty.

Set Warnings "-register-all".

(** ** Exceptions and computations that may raise *)

(** The exception classes that occur in [submit_attendance].  [OtherError]
    stands for every class that is a subclass of [Exception] but not of
    [ValueError]: [AttributeError], the transport errors of [requests], the
    errors of the document store. *)
Inductive exn : Type :=
| ValueError (msg : string)
| OverflowError (msg : string)
| HTTPException (status_code : Z) (detail : string)
| OtherError (msg : string).

(** [str(e)]. *)
Definition exn_str (e : exn) : string :=
  match e with
  | ValueError m | OverflowError m | OtherError m => m
  | HTTPException c d => pretty c +:+ ": " +:+ d
  end.

(** [isinstance(e, ValueError)], the test of [except ValueError]. *)
Definition is_ValueError (e : exn) : bool :=
  match e with ValueError _ => true | _ => false end.

Inductive res (A : Type) : Type :=
| Return (a : A)
| Raise (e : exn).
Arguments Return {A} a.
Arguments Raise {A} e.

#[global] Instance res_ret : MRet res := @Return.
#[global] Instance res_bind : MBind res :=
  λ A B f m, match m with Return a => f a | Raise e => Raise e end.

(** [try: m  except Exception as e: h e]; a handler re-raises what its
    [except] clause does not match. *)
Definition try_except {A} (m : res A) (h : exn → res A) : res A :=
  match m with Return a => Return a | Raise e => h e end.

(** ** Arithmetic of the distance computation *)

(** The operations that lines 80-84 apply to numbers.  The code runs them on
    binary64 floats; the interface also has an exact instance over the real
    numbers, which gives the mathematical value of the same expression. *)
Module math.
Class Ops (F : Type) : Type := {
  of_int : Z → F;                (* an [int] operand of a mixed operation *)
  add : F → F → F;
  sub : F → F → F;
  mul : F → F → F;
  div : F → F → F;               (* by a non-zero divisor *)
  pow : F → Z → res F;           (* [x ** n] *)
  radians : F → F;
  sin : F → res F;
  cos : F → res F;
  sqrt : F → res F;
  atan2 : F → F → res F
}.
End math.

Declare Scope num_scope.
Delimit Scope num_scope with num.
Infix "+" := math.add : num_scope.
Infix "-" := math.sub : num_scope.
Infix "*" := math.mul : num_scope.
Infix "/" := math.div : num_scope.
Notation "x ** n" := (math.pow x n) (at level 30, right associativity) : num_scope.

Section Haversine.
Context {F : Type} `{!math.Ops F}.
Local Open Scope num_scope.

(** Lines 79-84, "Haversine distance in meters", in Python's order of
    evaluation: the operands of [+] and [*] from left to right, [**]
    before [*]. *)
Definition haversine_distance_m (latitude longitude office_lat office_lng : F) : res F :=
  let R := math.of_int 6371000 in
  let dlat := math.radians (latitude - office_lat) in
  let dlon := math.radians (longitude - office_lng) in
  s1 ← math.sin (dlat / math.of_int 2);
  p1 ← s1 ** 2;
  c1 ← math.cos (math.radians office_lat);
  c2 ← math.cos (math.radians latitude);
  s2 ← math.sin (dlon / math.of_int 2);
  p2 ← s2 ** 2;
  let a := p1 + c1 * c2 * p2 in
  r1 ← math.sqrt a;
  r2 ← math.sqrt (math.of_int 1 - a);
  t ← math.atan2 r1 r2;
  let c := math.of_int 2 * t in
  let dist_m := R * c in
  mret dist_m.
End Haversine.

Arguments haversine_distance_m : simpl never.

(** ** Python's runtime *)

Module datetime.
Record t : Type := mk {
  year : Z; month : Z; day : Z;
  hour : Z; minute : Z; second : Z; microsecond : Z
}.
End datetime.

(** Library functions of Python that the code calls.  A [res] result is a
    call that may raise; [float_of_str s = None] is [float(s)] raising
    [ValueError]. *)
Class Runtime : Type := {
  float_of_str : string → option float;       (* [float(s)] *)
  float_str : float → string;                 (* [f"{x}"] *)
  float_format : nat → float → string;        (* [f"{x:.1f}"], [f"{x:.0f}"] *)
  float_pow : float → Z → res float;          (* [x ** n] *)
  math_sin : float → res float;
  math_cos : float → res float;
  math_atan2 : float → float → res float;
  strftime : datetime.t → string → string     (* [now.strftime(fmt)] *)
}.

(** [float(n)] for an [int] below 2^63 in absolute value; the code converts
    only the literals 1, 2 and 6371000. *)
Definition float_of_int (z : Z) : float :=
  if (z <? 0)%Z then (- of_uint63 (Uint63.of_Z (- z)))%float
  else of_uint63 (Uint63.of_Z z).

(** [math.radians]: CPython multiplies by the constant [pi / 180.0]. *)
Definition degToRad : float := (0x1.921fb54442d18p+1 / 180)%float.
Definition math_radians (x : float) : float := (x * degToRad)%float.

(** [math.sqrt]: the correctly rounded square root; a NaN result of an
    argument that is not NaN (a negative argument) is a [ValueError]. *)
Definition math_sqrt (x : float) : res float :=
  let r := PrimFloat.sqrt x in
  if is_nan r && negb (is_nan x) then Raise (ValueError "math domain error")
  else Return r.

#[global] Instance binary64 `{!Runtime} : math.Ops float := {|
  math.of_int := float_of_int;
  math.add := PrimFloat.add;
  math.sub := PrimFloat.sub;
  math.mul := PrimFloat.mul;
  math.div := PrimFloat.div;
  math.pow := float_pow;
  math.radians := math_radians;
  math.sin := math_sin;
  math.cos := math_cos;
  math.sqrt := math_sqrt;
  math.atan2 := math_atan2
|}.

(** ** Data *)

(** JSON values, as [resp.json()] returns them; [JNull] is [None]. *)
Inductive json : Type :=
| JNull
| JBool (b : bool)
| JInt (z : Z)
| JFloat (f : float)
| JStr (s : string)
| JList (l : list json)
| JDict (d : gmap string json).

(** Python's [str] is a sequence of code points; a [string] here holds its
    UTF-8 encoding, in which every code point is one lead byte followed by
    its continuation bytes (those of the form 10xxxxxx). *)
Definition is_continuation (c : Ascii.ascii) : bool :=
  let b := Ascii.N_of_ascii c in ((128 <=? b) && (b <? 192))%N.

(** [len(s)]: the number of code points. *)
Fixpoint str_len (s : string) : nat :=
  match s with
  | EmptyString => 0
  | String c s' => if is_continuation c then str_len s' else S (str_len s')
  end.

(** [s[:n]]: the first [n] code points, each with all of its bytes. *)
Fixpoint str_take (n : nat) (s : string) : string :=
  match s with
  | EmptyString => EmptyString
  | String c s' =>
      if is_continuation c then String c (str_take n s')
      else match n with
           | O => EmptyString
           | S n' => String c (str_take n' s')
           end
  end.

(** Truth value of a Python object. *)
Definition str_truthy (s : string) : bool :=
  match s with EmptyString => false | String _ _ => true end.

Definition json_truthy (v : json) : bool :=
  match v with
  | JNull => false
  | JBool b => b
  | JInt z => negb (z =? 0)%Z
  | JFloat f => negb (f =? 0)%float
  | JStr s => str_truthy s
  | JList l => match l with [] => false | _ :: _ => true end
  | JDict d => negb (size d =? 0)%nat
  end.

(** [data.get(k)]: only a [dict] has the method. *)
Definition json_get (data : json) (k : string) : res json :=
  match data with
  | JDict d => Return (default JNull (d !! k))
  | _ => Raise (OtherError "object has no attribute 'get'")
  end.

(** The request body, lines 25-31. *)
Module AttendanceIn.
Record t : Type := mk {
  name : string;
  email : string;
  latitude : float;
  longitude : float;
  accuracy_m : float;
  photo_base64 : option string
}.
End AttendanceIn.

(** Modelled from the spec: [schemas.AttendanceRecord] is not among the
    sources.  Section 3 of the specification lists what a record holds
    (name, email, date, time, latitude, longitude, accuracy_m, geofence
    verdict, optional photo payload, optional photo URL); the field names are
    the keywords of the constructor call at line 93, which is taken to accept
    every value it is given. *)
Module AttendanceRecord.
Record t : Type := mk {
  name : string;
  email : string;
  date : string;
  time : string;
  latitude : float;
  longitude : float;
  accuracy_m : float;
  photo_url : option string;
  geofence_ok : option bool;
  raw_photo_base64 : option string
}.
End AttendanceRecord.

(** The JSON object posted to the Apps Script endpoint, lines 116-127. *)
Module gs_payload.
Record t : Type := mk {
  name : string;
  email : string;
  date : string;
  time : string;
  latitude : float;
  longitude : float;
  accuracy_m : float;
  month_tab : string;
  photo_base64 : option string;
  geofence_ok : option bool
}.
End gs_payload.

(** What the code reads of the [requests.Response]: [json] is the outcome
    of calling [resp.json()]. *)
Module Response.
Record t : Type := mk {
  status_code : Z;
  text : string;
  json : res json
}.
End Response.

(** The returned dictionary, lines 148-164. *)
Module Data.
Record t : Type := mk {
  id : option string;
  date : string;
  time : string;
  latitude : float;
  longitude : float;
  accuracy_m : float;
  geofence_ok : option bool;
  photo_url : json;
  apps_script_forwarded : bool;
  apps_script_error : option string
}.
End Data.

Module Result.
Record t : Type := mk {
  success : bool;
  message : string;
  data : Data.t;
  dashboard_url : option string
}.
End Result.

(** ** The world outside and the log of sink calls *)

(** What a run reads from outside.  [database.create_document] is not among
    the sources: what a call to it returns or raises is a field of the
    world, like the answer of the endpoint. *)
Record World : Type := {
  environ : gmap string string;                                   (* [os.environ] *)
  datetime_now : datetime.t;                                      (* [datetime.now()] *)
  requests_post : string → gs_payload.t → Z → res Response.t;     (* [requests.post(url, json=, timeout=)] *)
  create_document : string → AttendanceRecord.t → res string      (* [database.create_document] *)
}.

Inductive event : Type :=
| ForwarderCall (url : string) (body : gs_payload.t) (timeout : Z)
| PersistenceWrite (collection : string) (record : AttendanceRecord.t).

(** A computation that may raise and that appends its sink calls to the log. *)
Definition io (A : Type) : Type := list event → res A * list event.

#[global] Instance io_ret : MRet io := λ A a log, (Return a, log).
#[global] Instance io_bind : MBind io :=
  λ A B f m log,
    match m log with
    | (Return a, log') => f a log'
    | (Raise e, log') => (Raise e, log')
    end.

(** A computation without sink calls. *)
Definition lift {A} (m : res A) : io A := λ log, (m, log).

(** [try: m  except Exception as e: h e] *)
Definition io_try_except {A} (m : io A) (h : exn → io A) : io A :=
  λ log,
    match m log with
    | (Return a, log') => (Return a, log')
    | (Raise e, log') => h e log'
    end.

(** The outcome and the sink calls of a run that starts with an empty log. *)
Definition run {A} (m : io A) : res A * list event := m [].

(** ** The pipeline *)

Section Pipeline.
Context `{!Runtime} (W : World).

(** [os.getenv(k)] and [os.getenv(k, d)]. *)
Definition getenv (k : string) : option string := environ W !! k.
Definition getenv_default (k d : string) : string := default d (getenv k).

(** [float(s)] on a string. *)
Definition to_float (s : string) : res float :=
  match float_of_str s with
  | Some x => Return x
  | None => Raise (ValueError "could not convert string to float")
  end.

(** [requests.post] and [create_document], each recorded in the log. *)
Definition post (url : string) (body : gs_payload.t) (timeout : Z) : io Response.t :=
  λ log, (requests_post W url body timeout, log ++ [ForwarderCall url body timeout]).

Definition insert_document (collection : string) (record : AttendanceRecord.t) : io string :=
  λ log, (create_document W collection record, log ++ [PersistenceWrite collection record]).

(** Line 61. *)
Definition max_allowed_accuracy : res float :=
  to_float (getenv_default "MAX_ALLOWED_ACCURACY_M" "50").

(** The detail of line 63. *)
Definition accuracy_detail (max_accuracy : float) : string :=
  "Location accuracy too low (> " +:+ float_str max_accuracy +:+ " m)".

(** Lines 62-63: [payload.accuracy_m > max_accuracy]. *)
Definition check_accuracy (payload : AttendanceIn.t) (max_accuracy : float) : res unit :=
  if (max_accuracy <? AttendanceIn.accuracy_m payload)%float
  then Raise (HTTPException 400 (accuracy_detail max_accuracy))
  else Return ().

(** Lines 73-75: [float(os.getenv(k)) if os.getenv(k) else None]. *)
Definition office_setting (k : string) : res (option float) :=
  match getenv k with
  | Some s => if str_truthy s then x ← to_float s; mret (Some x) else mret None
  | None => mret None
  end.

(** The detail of line 87. *)
Definition geofence_detail (dist_m office_radius : float) : string :=
  "Outside geofence (distance " +:+ float_format 1 dist_m +:+
  " m > " +:+ float_format 0 office_radius +:+ " m)".

(** Lines 71-90, the value of [geofence_ok] after the [try] statement.  The
    [HTTPException] of line 87 is not a [ValueError] and leaves the block. *)
Definition geofence_check (payload : AttendanceIn.t) : res (option bool) :=
  try_except
    (office_lat ← office_setting "OFFICE_LAT";
     office_lng ← office_setting "OFFICE_LNG";
     office_radius ← office_setting "OFFICE_RADIUS_M";
     match office_lat, office_lng, office_radius with
     | Some office_lat, Some office_lng, Some office_radius =>
         dist_m ← haversine_distance_m
                    (AttendanceIn.latitude payload) (AttendanceIn.longitude payload)
                    office_lat office_lng;
         let geofence_ok := (dist_m <=? office_radius)%float in
         if negb geofence_ok
         then Raise (HTTPException 400 (geofence_detail dist_m office_radius))
         else mret (Some geofence_ok)
     | _, _, _ => mret None
     end)
    (λ e, if is_ValueError e then mret None else Raise e).

(** Lines 66-68 and 93-104. *)
Definition build_record (payload : AttendanceIn.t) (geofence_ok : option bool)
  : AttendanceRecord.t :=
  let now := datetime_now W in
  let date_str := strftime now "%Y-%m-%d" in
  let time_str := strftime now "%H:%M:%S" in
  {| AttendanceRecord.name := AttendanceIn.name payload;
     AttendanceRecord.email := AttendanceIn.email payload;
     AttendanceRecord.date := date_str;
     AttendanceRecord.time := time_str;
     AttendanceRecord.latitude := AttendanceIn.latitude payload;
     AttendanceRecord.longitude := AttendanceIn.longitude payload;
     AttendanceRecord.accuracy_m := AttendanceIn.accuracy_m payload;
     AttendanceRecord.photo_url := None;
     AttendanceRecord.geofence_ok := geofence_ok;
     AttendanceRecord.raw_photo_base64 := AttendanceIn.photo_base64 payload |}.

(** Lines 115-127. *)
Definition build_gs_payload (record : AttendanceRecord.t) : gs_payload.t :=
  let month_tab := strftime (datetime_now W) "%b-%Y" in
  {| gs_payload.name := AttendanceRecord.name record;
     gs_payload.email := AttendanceRecord.email record;
     gs_payload.date := AttendanceRecord.date record;
     gs_payload.time := AttendanceRecord.time record;
     gs_payload.latitude := AttendanceRecord.latitude record;
     gs_payload.longitude := AttendanceRecord.longitude record;
     gs_payload.accuracy_m := AttendanceRecord.accuracy_m record;
     gs_payload.month_tab := month_tab;
     gs_payload.photo_base64 := AttendanceRecord.raw_photo_base64 record;
     gs_payload.geofence_ok := AttendanceRecord.geofence_ok record |}.

(** Line 133: [data.get("photoUrl") or data.get("photo_url")]. *)
Definition photo_url_of (data : json) : res json :=
  v ← json_get data "photoUrl";
  if json_truthy v then mret v else json_get data "photo_url".

(** Lines 131-135: the inner [try] with [except Exception: pass]. *)
Definition photo_url_from (resp : Response.t) : json :=
  match (data ← Response.json resp; photo_url_of data) with
  | Return v => v
  | Raise _ => JNull
  end.

(** The detail of line 137. *)
Definition status_detail (resp : Response.t) : string :=
  "Apps Script HTTP " +:+ pretty (Response.status_code resp) +:+ ": " +:+
  str_take 200 (Response.text resp).

(** Lines 107-139; the result is
    [(photo_url_from_apps, forwarded_ok, apps_script_error)]. *)
Definition forward (record : AttendanceRecord.t) : io (json * bool * option string) :=
  match getenv "APPS_SCRIPT_URL" with
  | Some apps_script_url =>
      if str_truthy apps_script_url then
        io_try_except
          (resp ← post apps_script_url (build_gs_payload record) 15;
           if (Response.status_code resp =? 200)%Z
           then mret (photo_url_from resp, true, None)
           else mret (JNull, false, Some (status_detail resp)))
          (λ e, mret (JNull, false, Some (exn_str e)))
      else mret (JNull, false, None)
  | None => mret (JNull, false, None)
  end.

(** Lines 142-145. *)
Definition persist (record : AttendanceRecord.t) : io (option string) :=
  io_try_except
    (inserted_id ← insert_document "attendancerecord" record; mret (Some inserted_id))
    (λ _, mret None).

(** [os.getenv("SHEETS_DASHBOARD_URL") or None] *)
Definition dashboard : option string :=
  match getenv "SHEETS_DASHBOARD_URL" with
  | Some s => if str_truthy s then Some s else None
  | None => None
  end.

(** Lines 148-164. *)
Definition build_response (record : AttendanceRecord.t) (inserted_id : option string)
    (photo_url_from_apps : json) (forwarded_ok : bool) (apps_script_error : option string)
  : Result.t :=
  {| Result.success := true;
     Result.message := "Attendance marked successfully!";
     Result.data := {|
       Data.id := inserted_id;
       Data.date := AttendanceRecord.date record;
       Data.time := AttendanceRecord.time record;
       Data.latitude := AttendanceRecord.latitude record;
       Data.longitude := AttendanceRecord.longitude record;
       Data.accuracy_m := AttendanceRecord.accuracy_m record;
       Data.geofence_ok := AttendanceRecord.geofence_ok record;
       Data.photo_url := photo_url_from_apps;
       Data.apps_script_forwarded := forwarded_ok;
       Data.apps_script_error := apps_script_error
     |};
     Result.dashboard_url := dashboard |}.

(** Lines 92-164: what the function does once both gates have let the
    submission through with the verdict [geofence_ok]. *)
Definition dispatch (payload : AttendanceIn.t) (geofence_ok : option bool) : io Result.t :=
  let record := build_record payload geofence_ok in
  '(photo_url_from_apps, forwarded_ok, apps_script_error) ← forward record;
  inserted_id ← persist record;
  mret (build_response record inserted_id photo_url_from_apps forwarded_ok apps_script_error).

(** Lines 59-164. *)
Definition submit_attendance (payload : AttendanceIn.t) : io Result.t :=
  max_accuracy ← lift max_allowed_accuracy;
  _ ← lift (check_accuracy payload max_accuracy);
  geofence_ok ← lift (geofence_check payload);
  dispatch payload geofence_ok.

(** What lines 113-139 leave in [photo_url_from_apps], [forwarded_ok] and
    [apps_script_error] when they call the endpoint [url]. *)
Definition forward_outcome (record : AttendanceRecord.t) (url : string)
  : json * bool * option string :=
  match requests_post W url (build_gs_payload record) 15 with
  | Return resp =>
      if (Response.status_code resp =? 200)%Z
      then (photo_url_from resp, true, None)
      else (JNull, false, Some (status_detail resp))
  | Raise e => (JNull, false, Some (exn_str e))
  end.

(** What lines 142-145 leave in [inserted_id]. *)
Definition persist_outcome (record : AttendanceRecord.t) : option string :=
  match create_document W "attendancerecord" record with
  | Return inserted_id => Some inserted_id
  | Raise _ => None
  end.

(** A setting of the environment that is not a number: unset, or set to a
    string that [float] rejects. *)
Definition unset_or_malformed (k : string) : Prop :=
  getenv k = None ∨ ∃ s, getenv k = Some s ∧ float_of_str s = None.

(** Both gates have let the submission through, with verdict [geofence_ok]. *)
Definition passed_gates (payload : AttendanceIn.t) (geofence_ok : option bool) : Prop :=
  ∃ max_accuracy,
    max_allowed_accuracy = Return max_accuracy ∧
    check_accuracy payload max_accuracy = Return () ∧
    geofence_check payload = Return geofence_ok.

End Pipeline.

(** ** Exact arithmetic *)

(** The two-argument arc tangent on the real numbers, with Python's value
    [atan2(0, 0) = 0]. *)
Definition Ratan2 (y x : R) : R :=
  if Rlt_dec 0 x then atan (y / x)
  else if Rlt_dec x 0 then
    if Rle_dec 0 y then atan (y / x) + PI else atan (y / x) - PI
  else if Rlt_dec 0 y then PI / 2
  else if Rlt_dec y 0 then - (PI / 2)
  else 0.

(** The operations of lines 80-84 without rounding.  [math.sqrt] keeps its
    domain check; [x ** n] is only used with [n = 2]. *)
#[global] Instance exact : math.Ops R := {|
  math.of_int := IZR;
  math.add := Rplus;
  math.sub := Rminus;
  math.mul := Rmult;
  math.div := Rdiv;
  math.pow := λ x n, Return (powerRZ x n);
  math.radians := λ x, (x * (PI / 180))%R;
  math.sin := λ x, Return (Rtrigo_def.sin x);
  math.cos := λ x, Return (Rtrigo_def.cos x);
  math.sqrt := λ x,
    if Rlt_dec x 0 then Raise (ValueError "math domain error")
    else Return (R_sqrt.sqrt x);
  math.atan2 := λ y x, Return (Ratan2 y x)
|}.

(** The haversine formula as section 4.2 of the specification words it, for
    two points given in degrees: the distance of [(lat2, lon2)] from
    [(lat1, lon1)] on a sphere of radius 6,371,000 m.  [haversine_a] is its
    [a = sin²(Δlat/2) + cos(lat1)·cos(lat2)·sin²(Δlon/2)], with the deltas
    and the two latitudes in radians. *)
Definition deg_to_rad (deg : R) : R := (deg * PI / 180)%R.

Definition haversine_a (lat1 lon1 lat2 lon2 : R) : R :=
  let Δlat := deg_to_rad (lat2 - lat1) in
  let Δlon := deg_to_rad (lon2 - lon1) in
  ((Rtrigo_def.sin (Δlat / 2))² +
   Rtrigo_def.cos (deg_to_rad lat1) * Rtrigo_def.cos (deg_to_rad lat2) *
   (Rtrigo_def.sin (Δlon / 2))²)%R.

Definition haversine_formula (lat1 lon1 lat2 lon2 : R) : R :=
  let a := haversine_a lat1 lon1 lat2 lon2 in
  (2 * 6371000 * Ratan2 (R_sqrt.sqrt a) (R_sqrt.sqrt (1 - a)))%R.

(** ** Comparing worlds and responses *)

(** The world [W] with another document store. *)
Definition with_create_document (W : World)
    (store : string → AttendanceRecord.t → res string) : World :=
  {| environ := environ W;
     datetime_now := datetime_now W;
     requests_post := requests_post W;
     create_document := store |}.

(** The response [r] with a null [data.id]. *)
Definition without_id (r : Result.t) : Result.t :=
  {| Result.success := Result.success r;
     Result.message := Result.message r;
     Result.data := {|
       Data.id := None;
       Data.date := Data.date (Result.data r);
       Data.time := Data.time (Result.data r);
       Data.latitude := Data.latitude (Result.data r);
       Data.longitude := Data.longitude (Result.data r);
       Data.accuracy_m := Data.accuracy_m (Result.data r);
       Data.geofence_ok := Data.geofence_ok (Result.data r);
       Data.photo_url := Data.photo_url (Result.data r);
       Data.apps_script_forwarded := Data.apps_script_forwarded (Result.data r);
       Data.apps_script_error := Data.apps_script_error (Result.data r)
     |};
     Result.dashboard_url := Result.dashboard_url r |}.

(** ** A runtime and worlds for running the model *)

Module Demo.

(** The value of a string of decimal digits. *)
Fixpoint digits (acc : Z) (s : string) : option Z :=
  match s with
  | EmptyString => Some acc
  | String c s' =>
      let d := (Z.of_N (Ascii.N_of_ascii c) - 48)%Z in
      if ((0 <=? d) && (d <=? 9))%Z then digits (10 * acc + d) s' else None
  end.

(** [float(s)] for a non-empty string of decimal digits; every other string
    raises. *)
Definition float_of_str (s : string) : option float :=
  if str_truthy s then float_of_int <$> digits 0 s else None.

(** The integer part of a finite float. *)
Definition trunc (x : float) : Z :=
  match Prim2SF x with
  | S754_finite s m e =>
      let v := if (0 <=? e)%Z then (Z.pos m * 2 ^ e)%Z else (Z.pos m / 2 ^ (- e))%Z in
      if s then (- v)%Z else v
  | _ => 0%Z
  end.

(** [s] with zeros in front, up to [n] characters. *)
Fixpoint pad (n : nat) (s : string) : string :=
  match n with
  | O => s
  | S n' => if (String.length s <=? n')%nat then pad n' ("0" +:+ s) else s
  end.

(** Fixed-point notation with [n] decimals, by truncation. *)
Definition float_format (n : nat) (x : float) : string :=
  let scale := (10 ^ Z.of_nat n)%Z in
  let v := trunc (abs x * float_of_int scale) in
  let sign := if (x <? 0)%float then "-" else EmptyString in
  let int_part := pretty (v / scale)%Z in
  match n with
  | O => sign +:+ int_part
  | _ => sign +:+ int_part +:+ "." +:+ pad n (pretty (v mod scale)%Z)
  end.

Definition float_str (x : float) : string := float_format 1 x.

(** [x ** n] by repeated multiplication. *)
Definition float_pow (x : float) (n : Z) : res float :=
  Return (Z.iter n (λ y, (y * x)%float) 1%float).

(** Low-order series, adequate for the small angles of the examples. *)
Definition math_sin (x : float) : res float :=
  Return (x - x * x * x / 6)%float.

Definition math_cos (x : float) : res float :=
  Return (1 - x * x / 2 + x * x * x * x / 24)%float.

Definition math_atan2 (y x : float) : res float :=
  if (0 <? x)%float then let t := (y / x)%float in Return (t - t * t * t / 3)%float
  else Return (if (0 <? y)%float then 0x1.921fb54442d18p+0%float
               else if (y <? 0)%float then (- 0x1.921fb54442d18p+0)%float
               else 0%float).

(** Dates and times in the three formats of the code. *)
Definition two (z : Z) : string := pad 2 (pretty z).

Definition month_abbr (m : Z) : string :=
  nth (Z.to_nat (m - 1))
      ["Jan"; "Feb"; "Mar"; "Apr"; "May"; "Jun"; "Jul"; "Aug"; "Sep"; "Oct"; "Nov"; "Dec"]
      EmptyString.

Definition strftime (now : datetime.t) (fmt : string) : string :=
  if String.eqb fmt "%Y-%m-%d" then
    pretty (datetime.year now) +:+ "-" +:+ two (datetime.month now) +:+ "-" +:+
    two (datetime.day now)
  else if String.eqb fmt "%H:%M:%S" then
    two (datetime.hour now) +:+ ":" +:+ two (datetime.minute now) +:+ ":" +:+
    two (datetime.second now)
  else month_abbr (datetime.month now) +:+ "-" +:+ pretty (datetime.year now).

#[global] Instance runtime : Runtime :=
  Build_Runtime float_of_str float_str float_format float_pow
                math_sin math_cos math_atan2 strftime.

Definition now : datetime.t := datetime.mk 2025 11 3 9 5 30 0.

(** A submission from the office door, one 0.01 degrees (about 1.1 km) to
    the east of it, and one with a fix that is 80 m wide. *)
Definition at_office : AttendanceIn.t :=
  AttendanceIn.mk "Ada" "ada@example.com" 0 0 10 None.

Definition far_away : AttendanceIn.t :=
  AttendanceIn.mk "Ada" "ada@example.com" 0 0x1.47ae147ae147bp-7 10 None.

Definition poor_fix : AttendanceIn.t :=
  AttendanceIn.mk "Ada" "ada@example.com" 0 0 80 None.

Definition office : gmap string string :=
  <["OFFICE_LAT" := "0"]> (<["OFFICE_LNG" := "0"]> (<["OFFICE_RADIUS_M" := "100"]> ∅)).

Definition forwarding : gmap string string :=
  <["APPS_SCRIPT_URL" := "https://script.example/exec"]> office.

(** A fix that is 13 m wide, and a maximum configured as 12. *)
Definition fix_13 : AttendanceIn.t :=
  AttendanceIn.mk "Ada" "ada@example.com" 0 0 13 None.

Definition max_12 : gmap string string :=
  <["MAX_ALLOWED_ACCURACY_M" := "12"]> ∅.

Definition html_200 : Response.t :=
  Response.mk 200 "<html>Moved</html>" (Raise (ValueError "Expecting value")).

(** [n] copies of a string, and an answer whose body is 201 times the
    two-byte character "é". *)
Fixpoint copies (n : nat) (s : string) : string :=
  match n with
  | O => EmptyString
  | S n' => s +:+ copies n' s
  end.

Definition accented_500 : Response.t :=
  Response.mk 500 (copies 201 "é") (Raise (ValueError "Expecting value")).

Definition error_500 : Response.t :=
  Response.mk 500 "Internal error" (Raise (ValueError "Expecting value")).

Definition world (env : gmap string string)
    (answer : res Response.t) (stored : res string) : World :=
  {| environ := env;
     datetime_now := now;
     requests_post := λ _ _ _, answer;
     create_document := λ _ _, stored |}.

End Demo.

(** ** The introspection endpoints *)

(** [bool(os.getenv(k))]. *)
Definition env_flag (W : World) (k : string) : bool :=
  match getenv W k with
  | Some s => str_truthy s
  | None => false
  end.

Module Geofence.
Record t : Type := mk {
  lat : option string;
  lng : option string;
  radius_m : option string
}.
End Geofence.

Module Info.
Record t : Type := mk {
  service : string;
  apps_script_configured : bool;
  sheets_dashboard_url : option string;
  geofence : Geofence.t
}.
End Info.

(** Lines 44-55. *)
Definition info (W : World) : Info.t :=
  {| Info.service := "attendance-backend";
     Info.apps_script_configured := env_flag W "APPS_SCRIPT_URL";
     Info.sheets_dashboard_url := dashboard W;
     Info.geofence := {|
       Geofence.lat := getenv W "OFFICE_LAT";
       Geofence.lng := getenv W "OFFICE_LNG";
       Geofence.radius_m := getenv W "OFFICE_RADIUS_M"
     |} |}.

(** What [test_database] uses of the object [database.db]: [name] is [None]
    when [hasattr(db, 'name')] is false. *)
Module Database.
Record t : Type := mk {
  name : option string;
  list_collection_names : res (list string)
}.
End Database.

(** The outcome of [from database import db] at line 180: the value of [db]
    ([None] when the module has no connection), an [ImportError], or another
    exception. *)
Inductive db_import : Type :=
| Imported (db : option Database.t)
| ImportError (msg : string)
| ImportFailed (e : exn).

(** The dictionary that [test_database] fills in, lines 170-177. *)
Module Report.
Record t : Type := mk {
  backend : string;
  database : string;
  database_url : option string;
  database_name : option string;
  connection_status : string;
  collections : list string
}.

(** [response[key] = value] *)
Definition set_database (v : string) (r : t) : t :=
  mk (backend r) v (database_url r) (database_name r) (connection_status r) (collections r).
Definition set_database_url (v : option string) (r : t) : t :=
  mk (backend r) (database r) v (database_name r) (connection_status r) (collections r).
Definition set_database_name (v : option string) (r : t) : t :=
  mk (backend r) (database r) (database_url r) v (connection_status r) (collections r).
Definition set_connection_status (v : string) (r : t) : t :=
  mk (backend r) (database r) (database_url r) (database_name r) v (collections r).
Definition set_collections (v : list string) (r : t) : t :=
  mk (backend r) (database r) (database_url r) (database_name r) (connection_status r) v.
End Report.

(** Lines 168-206.  The assignments run in the order of the source; the
    branches are those of the two [try] statements: the import raises before
    any assignment, and [list_collection_names] is the only call of the
    inner [try]. *)
Definition test_database (W : World) (imported : db_import) : Report.t :=
  let response :=
    {| Report.backend := "✅ Running";
       Report.database := "❌ Not Available";
       Report.database_url := None;
       Report.database_name := None;
       Report.connection_status := "Not Connected";
       Report.collections := [] |} in
  let response :=
    match imported with
    | Imported (Some db) =>
        let response := Report.set_database "✅ Available" response in
        let response := Report.set_database_url (Some "✅ Configured") response in
        let response :=
          Report.set_database_name (Some (default "✅ Connected" (Database.name db)))
                                   response in
        let response := Report.set_connection_status "Connected" response in
        match Database.list_collection_names db with
        | Return collections =>
            let response := Report.set_collections (take 10 collections) response in
            Report.set_database "✅ Connected & Working" response
        | Raise e =>
            Report.set_database
              ("⚠️  Connected but Error: " +:+ str_take 50 (exn_str e)) response
        end
    | Imported None => Report.set_database "⚠️  Available but not initialized" response
    | ImportError _ =>
        Report.set_database "❌ Database module not found (run enable-database first)"
                            response
    | ImportFailed e =>
        Report.set_database ("❌ Error: " +:+ str_take 50 (exn_str e)) response
    end in
  let response :=
    Report.set_database_url
      (Some (if env_flag W "DATABASE_URL" then "✅ Set" else "❌ Not Set")) response in
  Report.set_database_name
    (Some (if env_flag W "DATABASE_NAME" then "✅ Set" else "❌ Not Set")) response.

(** ** A runtime with the error cases of Python's own *)

Module Strict.

(** [float(s)] also accepts ["nan"] and ["inf"]. *)
Definition float_of_str (s : string) : option float :=
  if String.eqb s "nan" then Some nan
  else if String.eqb s "inf" then Some infinity
  else Demo.float_of_str s.

(** [x ** n] raises [OverflowError] when a finite operand overflows. *)
Definition float_pow (x : float) (n : Z) : res float :=
  let r := Z.iter n (λ y, (y * x)%float) 1%float in
  if is_infinity r && is_finite x
  then Raise (OverflowError "(34, 'Numerical result out of range')")
  else Return r.

(** [math.sin] and [math.cos] raise [ValueError] on an infinite argument. *)
Definition math_sin (x : float) : res float :=
  if is_infinity x then Raise (ValueError "math domain error") else Demo.math_sin x.

Definition math_cos (x : float) : res float :=
  if is_infinity x then Raise (ValueError "math domain error") else Demo.math_cos x.

Definition runtime : Runtime :=
  Build_Runtime float_of_str Demo.float_str Demo.float_format float_pow
                math_sin math_cos Demo.math_atan2 Demo.strftime.

(** An office whose radius is set to ["nan"]. *)
Definition nan_radius : gmap string string :=
  <["OFFICE_RADIUS_M" := "nan"]> Demo.office.

(** A submission with an infinite latitude. *)
Definition at_infinity : AttendanceIn.t :=
  AttendanceIn.mk "Ada" "ada@example.com" infinity 0 10 None.

End Strict.

(** A connected database with twelve collections, and one that cannot list
    them. *)
Definition twelve_collections : Database.t :=
  Database.mk (Some "attendance")
    (Return ["c01"; "c02"; "c03"; "c04"; "c05"; "c06"; "c07"; "c08"; "c09"; "c10";
             "c11"; "c12"]).

Definition unreachable_database : Database.t :=
  Database.mk (Some "attendance") (Raise (OtherError "server selection timed out")).

(** * Properties *)

(** ** Comparisons of binary64 floats *)

Lemma SFcompare_antisym (x y : spec_float) (c : comparison) :
  SFcompare x y = Some c → SFcompare y x = Some (CompOpp c).
Proof.
  destruct x as [sx|sx| |sx mx ex], y as [sy|sy| |sy my ey];
    unfold SFcompare; try discriminate;
    repeat match goal with s : bool |- _ => destruct s end;
    try (intros [= <-]; reflexivity).
  all: change (Pos.compare_cont Eq mx my) with (mx ?= my)%positive;
    change (Pos.compare_cont Eq my mx) with (my ?= mx)%positive;
    rewrite (Z.compare_antisym ex ey), (Pos.compare_antisym mx my);
    intros [= <-]; destruct (ex ?= ey)%Z, (mx ?= my)%positive; reflexivity.
Qed.

(** [a <= b] excludes [a > b], and [a > b] excludes [a <= b]; with a NaN
    operand both comparisons are false. *)
Lemma float_le_not_gt (a b : float) :
  (a <=? b)%float = true → (b <? a)%float = false.
Proof.
  rewrite leb_spec, ltb_spec. unfold SFleb, SFltb.
  destruct (SFcompare (Prim2SF a) (Prim2SF b)) as [c|] eqn:E; [|discriminate].
  rewrite (SFcompare_antisym _ _ _ E). destruct c; simpl; congruence.
Qed.

Lemma float_gt_not_le (a b : float) :
  (b <? a)%float = true → (a <=? b)%float = false.
Proof.
  intros Hgt. destruct (a <=? b)%float eqn:Hle; [|reflexivity].
  apply float_le_not_gt in Hle. congruence.
Qed.

(** ** Running the stages *)

Section Stages.
Context `{!Runtime} (W : World).

(** A setting either is a number, or is absent or empty, or does not parse. *)
Lemma office_setting_cases (k : string) :
  (∃ x, office_setting W k = Return (Some x)) ∨
  office_setting W k = Return None ∨
  office_setting W k = Raise (ValueError "could not convert string to float").
Proof.
  unfold office_setting, to_float.
  destruct (getenv W k) as [s|]; [|auto].
  destruct (str_truthy s); [|auto].
  destruct (float_of_str s); simpl; eauto.
Qed.

(** A setting is a number exactly when the variable is set to a non-empty
    string that [float] accepts. *)
Lemma office_setting_numeric (k : string) (x : float) :
  office_setting W k = Return (Some x) ↔
  ∃ s, getenv W k = Some s ∧ str_truthy s = true ∧ float_of_str s = Some x.
Proof.
  unfold office_setting, to_float. split.
  - destruct (getenv W k) as [s|]; [|discriminate].
    destruct (str_truthy s) eqn:Hs; [|discriminate].
    destruct (float_of_str s) as [y|] eqn:Hy; [|discriminate].
    cbn. intros [= <-]. eauto.
  - intros (s & -> & -> & ->). reflexivity.
Qed.

(** The run of the whole function once the gates are passed. *)
Lemma submit_passed (payload : AttendanceIn.t) (geofence_ok : option bool) (log : list event) :
  passed_gates W payload geofence_ok →
  submit_attendance W payload log = dispatch W payload geofence_ok log.
Proof.
  intros (m & Hm & Hacc & Hgeo).
  unfold submit_attendance, mbind, io_bind, lift. rewrite Hm, Hacc, Hgeo. reflexivity.
Qed.

(** The forwarder step never raises; it makes at most one call. *)
Lemma forward_skipped (record : AttendanceRecord.t) (log : list event) :
  getenv W "APPS_SCRIPT_URL" = None ∨ getenv W "APPS_SCRIPT_URL" = Some EmptyString →
  forward W record log = (Return (JNull, false, None), log).
Proof. unfold forward. intros [-> | ->]; reflexivity. Qed.

Lemma forward_called (record : AttendanceRecord.t) (url : string) (log : list event) :
  getenv W "APPS_SCRIPT_URL" = Some url → str_truthy url = true →
  forward W record log
  = (Return (forward_outcome W record url),
     log ++ [ForwarderCall url (build_gs_payload W record) 15]).
Proof.
  intros Hurl Hne. unfold forward, forward_outcome. rewrite Hurl, Hne.
  unfold io_try_except, mbind, io_bind, post.
  destruct (requests_post W url (build_gs_payload W record) 15) as [resp|e]; [|reflexivity].
  destruct (Response.status_code resp =? 200)%Z; reflexivity.
Qed.

(** The persistence step never raises; it makes exactly one write. *)
Lemma persist_run (record : AttendanceRecord.t) (log : list event) :
  persist W record log
  = (Return (persist_outcome W record), log ++ [PersistenceWrite "attendancerecord" record]).
Proof.
  unfold persist, persist_outcome, io_try_except, mbind, io_bind, insert_document.
  destruct (create_document W "attendancerecord" record); reflexivity.
Qed.

(** The run of lines 92-164 without a configured forwarder, and with one. *)
Lemma dispatch_skipped (payload : AttendanceIn.t) (g : option bool) (log : list event) :
  getenv W "APPS_SCRIPT_URL" = None ∨ getenv W "APPS_SCRIPT_URL" = Some EmptyString →
  dispatch W payload g log
  = (Return (build_response W (build_record W payload g)
               (persist_outcome W (build_record W payload g)) JNull false None),
     log ++ [PersistenceWrite "attendancerecord" (build_record W payload g)]).
Proof.
  intros Hurl. unfold dispatch. unfold mbind at 1. unfold io_bind at 1.
  rewrite (forward_skipped _ _ Hurl). unfold mbind, io_bind. rewrite persist_run. reflexivity.
Qed.

Lemma dispatch_called (payload : AttendanceIn.t) (g : option bool) (url : string)
    (log : list event) :
  getenv W "APPS_SCRIPT_URL" = Some url → str_truthy url = true →
  dispatch W payload g log
  = (let record := build_record W payload g in
     let '(photo, forwarded, error) := forward_outcome W record url in
     (Return (build_response W record (persist_outcome W record) photo forwarded error),
      log ++ [ForwarderCall url (build_gs_payload W record) 15;
              PersistenceWrite "attendancerecord" record])).
Proof.
  intros Hurl Hne. unfold dispatch. unfold mbind at 1. unfold io_bind at 1.
  rewrite (forward_called _ _ _ Hurl Hne).
  destruct (forward_outcome W (build_record W payload g) url) as [[photo forwarded] error].
  unfold mbind, io_bind. rewrite persist_run, <- app_assoc. reflexivity.
Qed.

(** Lines 92-164 always return a response: it reports success, carries the
    verdict it was given, and the record has been written to the store. *)
Lemma dispatch_returns (payload : AttendanceIn.t) (g : option bool) (log : list event) :
  ∃ r calls,
    dispatch W payload g log
    = (Return r, log ++ calls ++ [PersistenceWrite "attendancerecord" (build_record W payload g)]) ∧
    Result.success r = true ∧
    Data.geofence_ok (Result.data r) = g.
Proof.
  destruct (getenv W "APPS_SCRIPT_URL") as [url|] eqn:Hurl.
  - destruct (str_truthy url) eqn:Hne.
    + rewrite (dispatch_called _ _ _ _ Hurl Hne). cbv zeta.
      destruct (forward_outcome W (build_record W payload g) url) as [[photo forwarded] error].
      eexists _, [_]. split; [reflexivity|]. split; reflexivity.
    + destruct url; [|discriminate].
      rewrite dispatch_skipped by auto. eexists _, []. split; [reflexivity|]. split; reflexivity.
  - rewrite dispatch_skipped by auto. eexists _, []. split; [reflexivity|]. split; reflexivity.
Qed.

(** The three settings of the geofence. *)
Lemma unset_or_malformed_setting (k : string) :
  unset_or_malformed W k →
  office_setting W k = Return None ∨
  office_setting W k = Raise (ValueError "could not convert string to float").
Proof.
  unfold office_setting, to_float.
  intros [-> | (s & -> & ->)]; [auto|]. destruct (str_truthy s); auto.
Qed.

Lemma geofence_check_unconfigured (payload : AttendanceIn.t) (k : string) :
  k ∈ ["OFFICE_LAT"; "OFFICE_LNG"; "OFFICE_RADIUS_M"] →
  unset_or_malformed W k →
  geofence_check W payload = Return None.
Proof.
  intros Hk Hbad. apply unset_or_malformed_setting in Hbad.
  unfold geofence_check.
  destruct (office_setting_cases "OFFICE_LAT") as [[lat Hlat]|[Hlat|Hlat]];
  destruct (office_setting_cases "OFFICE_LNG") as [[lng Hlng]|[Hlng|Hlng]];
  destruct (office_setting_cases "OFFICE_RADIUS_M") as [[rad Hrad]|[Hrad|Hrad]];
  rewrite ?Hlat; cbn; rewrite ?Hlng; cbn; rewrite ?Hrad; cbn; try reflexivity.
  exfalso. repeat (apply elem_of_cons in Hk as [-> | Hk]; [destruct Hbad; congruence|]).
  by apply elem_of_nil in Hk.
Qed.

(** With the three settings numeric, the block compares the distance with
    the radius. *)
Lemma geofence_check_configured (payload : AttendanceIn.t)
    (office_lat office_lng office_radius : float) :
  office_setting W "OFFICE_LAT" = Return (Some office_lat) →
  office_setting W "OFFICE_LNG" = Return (Some office_lng) →
  office_setting W "OFFICE_RADIUS_M" = Return (Some office_radius) →
  geofence_check W payload
  = try_except
      (dist_m ← haversine_distance_m
                 (AttendanceIn.latitude payload) (AttendanceIn.longitude payload)
                 office_lat office_lng;
       if (dist_m <=? office_radius)%float then Return (Some true)
       else Raise (HTTPException 400 (geofence_detail dist_m office_radius)))
      (λ e, if is_ValueError e then Return None else Raise e).
Proof.
  intros Hlat Hlng Hrad. unfold geofence_check. rewrite Hlat; cbn. rewrite Hlng; cbn.
  rewrite Hrad; cbn.
  destruct (haversine_distance_m (F:=float) _ _ _ _) as [d|e]; cbn; [|reflexivity].
  destruct (d <=? office_radius)%float; reflexivity.
Qed.

(** The verdict of a block that does not raise is [None] or [True]. *)
Lemma geofence_check_verdict (payload : AttendanceIn.t) (g : option bool) :
  geofence_check W payload = Return g → g = None ∨ g = Some true.
Proof.
  unfold geofence_check.
  destruct (office_setting_cases "OFFICE_LAT") as [[lat Hlat]|[Hlat|Hlat]];
  destruct (office_setting_cases "OFFICE_LNG") as [[lng Hlng]|[Hlng|Hlng]];
  destruct (office_setting_cases "OFFICE_RADIUS_M") as [[rad Hrad]|[Hrad|Hrad]];
  rewrite ?Hlat; cbn; rewrite ?Hlng; cbn; rewrite ?Hrad; cbn;
    try (intros [= <-]; auto; fail).
  destruct (haversine_distance_m (F:=float) _ _ _ _) as [d|e]; cbn.
  - destruct (d <=? rad)%float; cbn; [intros [= <-]; auto | discriminate].
  - destruct (is_ValueError e); [intros [= <-]; auto | discriminate].
Qed.

End Stages.

(** ** The accuracy gate *)

(** C1.  Let the configured maximum be [max_accuracy]: [float] of the
    string that [MAX_ALLOWED_ACCURACY_M] is set to, or of the default ["50"]
    when the variable is unset.  A submission whose [accuracy_m] is greater than it is rejected
    with status 400 and the detail "Location accuracy too low (> {max} m)",
    and the log of sink calls is empty: no forwarder call, no persistence
    write.  A submission whose [accuracy_m] is less than or equal to it is
    not rejected by this gate: the check of lines 62-63 returns and the run
    is the run of the rest of the function. *)
Theorem accuracy_gate `{!Runtime} (W : World) (payload : AttendanceIn.t) (max_accuracy : float) :
  max_allowed_accuracy W = Return max_accuracy →
  (getenv W "MAX_ALLOWED_ACCURACY_M" = None → to_float "50" = Return max_accuracy) ∧
  (∀ s, getenv W "MAX_ALLOWED_ACCURACY_M" = Some s → to_float s = Return max_accuracy) ∧
  ((max_accuracy <? AttendanceIn.accuracy_m payload)%float = true →
   run (submit_attendance W payload)
   = (Raise (HTTPException 400
               ("Location accuracy too low (> " +:+ float_str max_accuracy +:+ " m)")),
      [])) ∧
  ((AttendanceIn.accuracy_m payload <=? max_accuracy)%float = true →
   check_accuracy payload max_accuracy = Return () ∧
   run (submit_attendance W payload)
   = run (geofence_ok ← lift (geofence_check W payload); dispatch W payload geofence_ok)).
Proof.
  intros Hmax. split; [|split; [|split]].
  - intros Hunset. rewrite <- Hmax. unfold max_allowed_accuracy, getenv_default.
    rewrite Hunset. reflexivity.
  - intros s Hset. rewrite <- Hmax. unfold max_allowed_accuracy, getenv_default.
    rewrite Hset. reflexivity.
  - intros Hgt. unfold run, submit_attendance, mbind, io_bind, lift.
    rewrite Hmax. unfold check_accuracy. rewrite Hgt. reflexivity.
  - intros Hle. apply float_le_not_gt in Hle.
    assert (Hok : check_accuracy payload max_accuracy = Return ())
      by (unfold check_accuracy; rewrite Hle; reflexivity).
    split; [exact Hok|].
    unfold run, submit_attendance, mbind, io_bind, lift. rewrite Hmax, Hok. reflexivity.
Qed.

Lemma accuracy_gate_witness :
  run (submit_attendance (Demo.world ∅ (Return Demo.html_200) (Return "6543f0")) Demo.poor_fix)
  = (Raise (HTTPException 400 "Location accuracy too low (> 50.0 m)"), []) ∧
  check_accuracy Demo.at_office 50 = Return () ∧
  run (submit_attendance (Demo.world Demo.max_12 (Return Demo.html_200) (Return "6543f0"))
                         Demo.fix_13)
  = (Raise (HTTPException 400 "Location accuracy too low (> 12.0 m)"), []).
Proof.
  split; [|split].
  - destruct (accuracy_gate (Demo.world ∅ (Return Demo.html_200) (Return "6543f0"))
                Demo.poor_fix 50) as (_ & _ & Hrejected & _); [reflexivity|].
    apply Hrejected. reflexivity.
  - destruct (accuracy_gate (Demo.world ∅ (Return Demo.html_200) (Return "6543f0"))
                Demo.at_office 50) as (_ & _ & _ & Hpassed); [reflexivity|].
    apply Hpassed. reflexivity.
  - destruct (accuracy_gate (Demo.world Demo.max_12 (Return Demo.html_200) (Return "6543f0"))
                Demo.fix_13 12) as (_ & _ & Hrejected & _); [reflexivity|].
    apply Hrejected. reflexivity.
Defined.

(** C10.  When [MAX_ALLOWED_ACCURACY_M] is set to a string that [float]
    rejects, every call raises the [ValueError] of line 61: it is not an
    [HTTPException], the default of 50 is not used, and nothing has been
    checked or sent (the log of sink calls is empty). *)
Theorem malformed_max_accuracy `{!Runtime} (W : World) (payload : AttendanceIn.t) (s : string) :
  getenv W "MAX_ALLOWED_ACCURACY_M" = Some s →
  float_of_str s = None →
  run (submit_attendance W payload)
  = (Raise (ValueError "could not convert string to float"), []).
Proof.
  intros Hset Hbad.
  unfold run, submit_attendance, mbind, io_bind, lift, max_allowed_accuracy,
    getenv_default, to_float.
  rewrite Hset. cbn. rewrite Hbad. reflexivity.
Qed.

Lemma malformed_max_accuracy_witness :
  run (submit_attendance
         (Demo.world (<["MAX_ALLOWED_ACCURACY_M" := "fifty"]> ∅)
                     (Return Demo.html_200) (Return "6543f0"))
         Demo.at_office)
  = (Raise (ValueError "could not convert string to float"), []).
Proof.
  apply (malformed_max_accuracy _ Demo.at_office "fifty"); reflexivity.
Defined.

(** ** The geofence *)

(** C2.  A submission that has passed the accuracy gate is checked against a
    geofence whose three settings are numbers.  Let [dist_m] be the distance
    that lines 79-84 compute.  If it is greater than the radius, the call is
    rejected with status 400 and the detail
    "Outside geofence (distance {d} m > {radius} m)", and the log of sink
    calls is empty.  If it is less than or equal to the radius, the verdict
    is [True] and the run goes on with lines 92-164, which return a response
    carrying that verdict after the record has been written to the store. *)
Theorem geofence_gate `{!Runtime} (W : World) (payload : AttendanceIn.t)
    (max_accuracy office_lat office_lng office_radius dist_m : float) :
  max_allowed_accuracy W = Return max_accuracy →
  check_accuracy payload max_accuracy = Return () →
  office_setting W "OFFICE_LAT" = Return (Some office_lat) →
  office_setting W "OFFICE_LNG" = Return (Some office_lng) →
  office_setting W "OFFICE_RADIUS_M" = Return (Some office_radius) →
  haversine_distance_m (AttendanceIn.latitude payload) (AttendanceIn.longitude payload)
                       office_lat office_lng = Return dist_m →
  ((office_radius <? dist_m)%float = true →
   run (submit_attendance W payload)
   = (Raise (HTTPException 400
               ("Outside geofence (distance " +:+ float_format 1 dist_m +:+
                " m > " +:+ float_format 0 office_radius +:+ " m)")),
      [])) ∧
  ((dist_m <=? office_radius)%float = true →
   geofence_check W payload = Return (Some true) ∧
   run (submit_attendance W payload) = run (dispatch W payload (Some true)) ∧
   ∃ r calls,
     run (submit_attendance W payload)
     = (Return r,
        calls ++ [PersistenceWrite "attendancerecord" (build_record W payload (Some true))]) ∧
     Result.success r = true ∧
     Data.geofence_ok (Result.data r) = Some true).
Proof.
  intros Hmax Hacc Hlat Hlng Hrad Hdist.
  pose proof (geofence_check_configured W payload _ _ _ Hlat Hlng Hrad) as Hgeo.
  rewrite Hdist in Hgeo. cbn in Hgeo. split.
  - intros Hgt. apply float_gt_not_le in Hgt. rewrite Hgt in Hgeo. cbn in Hgeo.
    unfold run, submit_attendance, mbind, io_bind, lift. rewrite Hmax, Hacc, Hgeo.
    reflexivity.
  - intros Hle. rewrite Hle in Hgeo. cbn in Hgeo.
    assert (Hrun : run (submit_attendance W payload) = run (dispatch W payload (Some true))).
    { unfold run. apply submit_passed. exists max_accuracy. auto. }
    split; [exact Hgeo|]. split; [exact Hrun|].
    destruct (dispatch_returns W payload (Some true) []) as (r & calls & Hr & Hs & Hg).
    exists r, calls. rewrite Hrun. unfold run. rewrite Hr. auto.
Qed.

Lemma geofence_gate_witness :
  run (submit_attendance (Demo.world Demo.office (Return Demo.html_200) (Return "6543f0"))
                         Demo.far_away)
  = (Raise (HTTPException 400 "Outside geofence (distance 1111.9 m > 100 m)"), []) ∧
  geofence_check (Demo.world Demo.office (Return Demo.html_200) (Return "6543f0"))
                 Demo.at_office
  = Return (Some true).
Proof.
  split.
  - edestruct (geofence_gate (Demo.world Demo.office (Return Demo.html_200) (Return "6543f0"))
                 Demo.far_away 50 0 0 100)
      as (Houtside & _); [reflexivity..|].
    apply Houtside. reflexivity.
  - edestruct (geofence_gate (Demo.world Demo.office (Return Demo.html_200) (Return "6543f0"))
                 Demo.at_office 50 0 0 100)
      as (_ & Hinside); [reflexivity..|].
    apply Hinside. reflexivity.
Defined.

(** C4.  If one of [OFFICE_LAT], [OFFICE_LNG], [OFFICE_RADIUS_M] is unset or
    is set to a string that [float] rejects, the block of lines 71-90
    returns with [geofence_ok = None] for every submission: it does not
    raise, and a submission that has passed the accuracy gate gets a
    response whose [geofence_ok] is null. *)
Theorem geofence_unconfigured `{!Runtime} (W : World) (payload : AttendanceIn.t) (k : string) :
  k ∈ ["OFFICE_LAT"; "OFFICE_LNG"; "OFFICE_RADIUS_M"] →
  unset_or_malformed W k →
  geofence_check W payload = Return None ∧
  ∀ max_accuracy,
    max_allowed_accuracy W = Return max_accuracy →
    check_accuracy payload max_accuracy = Return () →
    ∃ r log,
      run (submit_attendance W payload) = (Return r, log) ∧
      Result.success r = true ∧
      Data.geofence_ok (Result.data r) = None.
Proof.
  intros Hk Hbad.
  pose proof (geofence_check_unconfigured W payload k Hk Hbad) as Hgeo.
  split; [exact Hgeo|]. intros m Hmax Hacc.
  destruct (dispatch_returns W payload None []) as (r & calls & Hr & Hs & Hg).
  exists r, ([] ++ calls ++ [PersistenceWrite "attendancerecord" (build_record W payload None)]).
  unfold run. rewrite (submit_passed W payload None) by (exists m; auto). auto.
Qed.

Lemma geofence_unconfigured_witness :
  geofence_check
    (Demo.world (<["OFFICE_RADIUS_M" := "wide"]> Demo.office)
                (Return Demo.html_200) (Return "6543f0"))
    Demo.far_away
  = Return None.
Proof.
  apply (geofence_unconfigured _ Demo.far_away "OFFICE_RADIUS_M").
  - set_solver.
  - right. exists "wide". split; reflexivity.
Defined.

(** C9.  In every response that [submit_attendance] returns, [geofence_ok]
    is null or true: a verdict of false raises at line 87 and no response is
    built. *)
Theorem success_geofence_ok `{!Runtime} (W : World) (payload : AttendanceIn.t)
    (r : Result.t) (log : list event) :
  run (submit_attendance W payload) = (Return r, log) →
  Result.success r = true ∧
  (Data.geofence_ok (Result.data r) = None ∨ Data.geofence_ok (Result.data r) = Some true) ∧
  Data.geofence_ok (Result.data r) ≠ Some false.
Proof.
  unfold run, submit_attendance, mbind, io_bind, lift.
  destruct (max_allowed_accuracy W) as [m|e]; [|discriminate].
  destruct (check_accuracy payload m) as [[]|e]; [|discriminate].
  destruct (geofence_check W payload) as [g|e] eqn:Hgeo; [|discriminate].
  destruct (dispatch_returns W payload g []) as (r' & calls & Hr & Hs & Hg).
  rewrite Hr. intros [= <- _]. rewrite Hg.
  apply geofence_check_verdict in Hgeo. split; [exact Hs|].
  split; [exact Hgeo|]. destruct Hgeo as [-> | ->]; discriminate.
Qed.

Lemma success_geofence_ok_witness :
  ∃ r log,
    run (submit_attendance (Demo.world Demo.office (Return Demo.html_200) (Return "6543f0"))
                           Demo.at_office) = (Return r, log) ∧
    Data.geofence_ok (Result.data r) ≠ Some false.
Proof.
  eexists _, _. split; [reflexivity|].
  eapply (success_geofence_ok (Demo.world Demo.office (Return Demo.html_200) (Return "6543f0"))
            Demo.at_office).
  reflexivity.
Defined.

(** ** The forwarder *)

(** A slice holds at most [n] code points and is a prefix of the string; a
    string of at most [n] code points is its own slice. *)
Lemma str_len_take (n : nat) (s : string) : str_len (str_take n s) ≤ n.
Proof.
  revert n. induction s as [|c s IH]; intros n; simpl; [lia|].
  destruct (is_continuation c) eqn:Hc; simpl.
  - rewrite Hc. apply IH.
  - destruct n as [|n]; simpl; [lia|]. rewrite Hc. specialize (IH n). lia.
Qed.

Lemma prefix_str_take (n : nat) (s : string) : String.prefix (str_take n s) s = true.
Proof.
  revert n. induction s as [|c s IH]; intros n; simpl; [reflexivity|].
  destruct (is_continuation c); [|destruct n as [|n]; [reflexivity|]]; simpl;
    (destruct (Ascii.ascii_dec c c); [apply IH | congruence]).
Qed.

Lemma str_take_all (n : nat) (s : string) : str_len s ≤ n → str_take n s = s.
Proof.
  revert n. induction s as [|c s IH]; intros n; simpl; [reflexivity|].
  destruct (is_continuation c).
  - intros Hn. f_equal. apply IH, Hn.
  - destruct n as [|n]; [lia|]. intros Hn. f_equal. apply IH. lia.
Qed.

(** C8.  With [APPS_SCRIPT_URL] unset, a submission that has passed both
    gates is not forwarded: the only sink call is the write to the store,
    and the response has [apps_script_forwarded = false] and
    [apps_script_error = null]. *)
Theorem forwarder_unset `{!Runtime} (W : World) (payload : AttendanceIn.t) (g : option bool) :
  passed_gates W payload g →
  getenv W "APPS_SCRIPT_URL" = None →
  ∃ r,
    run (submit_attendance W payload)
    = (Return r, [PersistenceWrite "attendancerecord" (build_record W payload g)]) ∧
    Result.success r = true ∧
    Data.apps_script_forwarded (Result.data r) = false ∧
    Data.apps_script_error (Result.data r) = None.
Proof.
  intros Hgates Hunset. eexists. unfold run.
  rewrite (submit_passed W payload g) by exact Hgates.
  rewrite dispatch_skipped by auto. auto.
Qed.

Lemma forwarder_unset_witness :
  ∃ r,
    run (submit_attendance (Demo.world Demo.office (Return Demo.html_200) (Return "6543f0"))
                           Demo.at_office)
    = (Return r,
       [PersistenceWrite "attendancerecord"
          (build_record (Demo.world Demo.office (Return Demo.html_200) (Return "6543f0"))
                        Demo.at_office (Some true))]) ∧
    Result.success r = true ∧
    Data.apps_script_forwarded (Result.data r) = false ∧
    Data.apps_script_error (Result.data r) = None.
Proof.
  apply (forwarder_unset (Demo.world Demo.office (Return Demo.html_200) (Return "6543f0"))
           Demo.at_office (Some true)).
  - exists 50%float. repeat split; reflexivity.
  - reflexivity.
Defined.



(** C7, as amended.  A submission has passed both gates, the forwarder is
    configured, and the endpoint answers with a body that [resp.json()]
    cannot parse.  The record is written to the store in every case.  With
    status 200 the parse error is swallowed by line 134 and the call counts
    as forwarded: [apps_script_forwarded = true], [apps_script_error = null],
    [photo_url = null].  With another status the call is recorded as a
    forwarder failure on account of the status, with [resp.text[:200]], the
    first 200 characters (code points) of the body, as excerpt. *)
Theorem malformed_body `{!Runtime} (W : World) (payload : AttendanceIn.t)
    (g : option bool) (url : string) (resp : Response.t) (e : exn) :
  passed_gates W payload g →
  getenv W "APPS_SCRIPT_URL" = Some url →
  str_truthy url = true →
  requests_post W url (build_gs_payload W (build_record W payload g)) 15 = Return resp →
  Response.json resp = Raise e →
  ∃ r,
    run (submit_attendance W payload)
    = (Return r,
       [ForwarderCall url (build_gs_payload W (build_record W payload g)) 15;
        PersistenceWrite "attendancerecord" (build_record W payload g)]) ∧
    Result.success r = true ∧
    (Response.status_code resp = 200%Z →
     Data.apps_script_forwarded (Result.data r) = true ∧
     Data.apps_script_error (Result.data r) = None ∧
     Data.photo_url (Result.data r) = JNull) ∧
    (Response.status_code resp ≠ 200%Z →
     Data.apps_script_forwarded (Result.data r) = false ∧
     Data.apps_script_error (Result.data r)
     = Some ("Apps Script HTTP " +:+ pretty (Response.status_code resp) +:+ ": " +:+
             str_take 200 (Response.text resp))).
Proof.
  intros Hgates Hurl Hne Hanswer Hbody. unfold run.
  rewrite (submit_passed W payload g) by exact Hgates.
  rewrite (dispatch_called W payload g url) by assumption. cbv zeta.
  unfold forward_outcome. rewrite Hanswer.
  destruct (Response.status_code resp =? 200)%Z eqn:Hstatus.
  - eexists. split; [reflexivity|]. split; [reflexivity|]. split.
    + intros _. cbn. unfold photo_url_from. rewrite Hbody. auto.
    + intros Hother. apply Z.eqb_eq in Hstatus. contradiction.
  - eexists. split; [reflexivity|]. split; [reflexivity|]. split.
    + intros H200. apply Z.eqb_neq in Hstatus. contradiction.
    + intros _. auto.
Qed.

Lemma malformed_body_witness :
  ∃ r log,
    run (submit_attendance (Demo.world Demo.forwarding (Return Demo.html_200) (Return "6543f0"))
                           Demo.at_office) = (Return r, log) ∧
    Data.apps_script_forwarded (Result.data r) = true ∧
    Data.apps_script_error (Result.data r) = None.
Proof.
  destruct (malformed_body
              (Demo.world Demo.forwarding (Return Demo.html_200) (Return "6543f0"))
              Demo.at_office (Some true) "https://script.example/exec" Demo.html_200
              (ValueError "Expecting value"))
    as (r & Hrun & _ & H200 & _).
  - exists 50%float. repeat split; reflexivity.
  - reflexivity.
  - reflexivity.
  - reflexivity.
  - reflexivity.
  - exists r. eexists. split; [exact Hrun|].
    destruct (H200 eq_refl) as (Hfw & Herr & _). auto.
Defined.

(** The answer of [Demo.html_200] has status 200 and a body that is not
    JSON; the response to the caller reports the forward as done, not as a
    failure. *)
Lemma malformed_body_counterexample :
  Response.json Demo.html_200 = Raise (ValueError "Expecting value") ∧
  ∃ r log,
    run (submit_attendance (Demo.world Demo.forwarding (Return Demo.html_200) (Return "6543f0"))
                           Demo.at_office) = (Return r, log) ∧
    ¬ (Data.apps_script_forwarded (Result.data r) = false ∧
       Data.apps_script_error (Result.data r) ≠ None).
Proof.
  split; [reflexivity|]. eexists _, _. split; [reflexivity|].
  intros [Hfw _]. discriminate Hfw.
Qed.

(** ** The store *)

(** C6.  A submission has passed both gates and the write to the store
    raises.  The call still returns a response, with [success = true] and
    [data.id = null].  Apart from [data.id], the response and the log of
    sink calls are those of the same run against any other store, one that
    succeeds or one that fails in another way: the failure changes neither
    [apps_script_forwarded] nor [geofence_ok] and leaves no error detail. *)
Theorem persistence_failure `{!Runtime} (W : World) (payload : AttendanceIn.t)
    (g : option bool) (e : exn) :
  passed_gates W payload g →
  create_document W "attendancerecord" (build_record W payload g) = Raise e →
  ∃ r log,
    run (submit_attendance W payload) = (Return r, log) ∧
    Result.success r = true ∧
    Data.id (Result.data r) = None ∧
    Data.geofence_ok (Result.data r) = g ∧
    ∀ store, ∃ r',
      run (submit_attendance (with_create_document W store) payload) = (Return r', log) ∧
      r = without_id r' ∧
      Data.apps_script_forwarded (Result.data r) = Data.apps_script_forwarded (Result.data r') ∧
      Data.apps_script_error (Result.data r) = Data.apps_script_error (Result.data r') ∧
      Data.geofence_ok (Result.data r) = Data.geofence_ok (Result.data r').
Proof.
  intros Hgates Hstore. unfold run.
  assert (Hid : persist_outcome W (build_record W payload g) = None)
    by (unfold persist_outcome; rewrite Hstore; reflexivity).
  rewrite (submit_passed W payload g) by exact Hgates.
  assert (Hgates' : ∀ store, passed_gates (with_create_document W store) payload g)
    by (intros store; exact Hgates).
  destruct (getenv W "APPS_SCRIPT_URL") as [url|] eqn:Hurl.
  - destruct (str_truthy url) eqn:Hne.
    + rewrite (dispatch_called W payload g url) by assumption. cbv zeta.
      destruct (forward_outcome W (build_record W payload g) url)
        as [[photo forwarded] error] eqn:Hout.
      eexists _, _. split; [reflexivity|]. rewrite Hid. repeat split.
      intros store. eexists.
      rewrite (submit_passed _ payload g) by apply Hgates'.
      rewrite (dispatch_called _ payload g url) by assumption. cbv zeta.
      change (forward_outcome (with_create_document W store)
                (build_record (with_create_document W store) payload g) url)
        with (forward_outcome W (build_record W payload g) url).
      rewrite Hout. repeat split.
    + destruct url; [|discriminate].
      rewrite dispatch_skipped by auto.
      eexists _, _. split; [reflexivity|]. rewrite Hid. repeat split.
      intros store. eexists.
      rewrite (submit_passed _ payload g) by apply Hgates'.
      rewrite dispatch_skipped by auto. repeat split.
  - rewrite dispatch_skipped by auto.
    eexists _, _. split; [reflexivity|]. rewrite Hid. repeat split.
    intros store. eexists.
    rewrite (submit_passed _ payload g) by apply Hgates'.
    rewrite dispatch_skipped by auto. repeat split.
Qed.

Lemma persistence_failure_witness :
  ∃ r log,
    run (submit_attendance
           (Demo.world Demo.forwarding (Return Demo.error_500)
                       (Raise (OtherError "connection refused")))
           Demo.at_office) = (Return r, log) ∧
    Result.success r = true ∧
    Data.id (Result.data r) = None.
Proof.
  destruct (persistence_failure
              (Demo.world Demo.forwarding (Return Demo.error_500)
                          (Raise (OtherError "connection refused")))
              Demo.at_office (Some true) (OtherError "connection refused"))
    as (r & log & Hrun & Hs & Hid & _).
  - exists 50%float. repeat split; reflexivity.
  - reflexivity.
  - exists r, log. auto.
Defined.

(** ** The distance *)

(** Lines 79-84 on binary64 floats, with the three [int] literals converted:
    every operation rounds, and [sin], [cos], [**], [sqrt] and [atan2] may
    raise. *)
Lemma haversine_distance_m_binary64 `{!Runtime} (latitude longitude office_lat office_lng : float) :
  haversine_distance_m latitude longitude office_lat office_lng
  = (s1 ← math_sin ((latitude - office_lat) * degToRad / 2)%float;
     p1 ← float_pow s1 2;
     c1 ← math_cos (office_lat * degToRad)%float;
     c2 ← math_cos (latitude * degToRad)%float;
     s2 ← math_sin ((longitude - office_lng) * degToRad / 2)%float;
     p2 ← float_pow s2 2;
     r1 ← math_sqrt (p1 + c1 * c2 * p2)%float;
     r2 ← math_sqrt (1 - (p1 + c1 * c2 * p2))%float;
     t ← math_atan2 r1 r2;
     mret (6371000 * (2 * t))%float).
Proof. reflexivity. Qed.

Section Exact.
Local Open Scope R_scope.

Lemma sin_half_sqr (x : R) :
  (Rtrigo_def.sin (x / 2))² = (1 - Rtrigo_def.cos x) / 2.
Proof.
  pose proof (cos_2a_sin (x / 2)) as H.
  replace (2 * (x / 2)) with x in H by lra. unfold Rsqr. lra.
Qed.

Lemma cos_product (u v : R) :
  Rtrigo_def.cos u * Rtrigo_def.cos v
  = (Rtrigo_def.cos (v - u) + Rtrigo_def.cos (v + u)) / 2.
Proof. rewrite cos_minus, cos_plus. lra. Qed.

(** The argument of the two square roots stays between 0 and 1, for all
    latitudes and longitudes. *)
Lemma haversine_a_range (lat1 lon1 lat2 lon2 : R) :
  0 <= haversine_a lat1 lon1 lat2 lon2 <= 1.
Proof.
  unfold haversine_a.
  replace (deg_to_rad (lat2 - lat1)) with (deg_to_rad lat2 - deg_to_rad lat1)
    by (unfold deg_to_rad; lra).
  rewrite !sin_half_sqr, cos_product.
  pose proof (COS_bound (deg_to_rad lat2 - deg_to_rad lat1)) as [? ?].
  pose proof (COS_bound (deg_to_rad lat2 + deg_to_rad lat1)) as [? ?].
  pose proof (COS_bound (deg_to_rad (lon2 - lon1))) as [? ?].
  set (C := Rtrigo_def.cos (deg_to_rad lat2 - deg_to_rad lat1)) in *.
  set (D := Rtrigo_def.cos (deg_to_rad lat2 + deg_to_rad lat1)) in *.
  set (E := Rtrigo_def.cos (deg_to_rad (lon2 - lon1))) in *.
  split; nra.
Qed.

Lemma sin_sqr_neg (x y : R) : x = - y → (Rtrigo_def.sin x)² = (Rtrigo_def.sin y)².
Proof. intros ->. rewrite sin_neg. symmetry. apply Rsqr_neg. Qed.

Lemma haversine_a_sym (lat1 lon1 lat2 lon2 : R) :
  haversine_a lat1 lon1 lat2 lon2 = haversine_a lat2 lon2 lat1 lon1.
Proof.
  unfold haversine_a.
  rewrite (sin_sqr_neg (deg_to_rad (lat2 - lat1) / 2) (deg_to_rad (lat1 - lat2) / 2))
    by (unfold deg_to_rad; lra).
  rewrite (sin_sqr_neg (deg_to_rad (lon2 - lon1) / 2) (deg_to_rad (lon1 - lon2) / 2))
    by (unfold deg_to_rad; lra).
  ring.
Qed.

(** The value that lines 80-82 give to [a] in exact arithmetic. *)
Lemma exact_a (latitude longitude office_lat office_lng : R) :
  Rtrigo_def.sin ((latitude - office_lat) * (PI / 180) / 2) ^ 2 +
  Rtrigo_def.cos (office_lat * (PI / 180)) * Rtrigo_def.cos (latitude * (PI / 180)) *
  Rtrigo_def.sin ((longitude - office_lng) * (PI / 180) / 2) ^ 2
  = haversine_a office_lat office_lng latitude longitude.
Proof.
  unfold haversine_a, deg_to_rad. rewrite !Rsqr_pow2.
  replace ((latitude - office_lat) * (PI / 180)) with ((latitude - office_lat) * PI / 180) by lra.
  replace ((longitude - office_lng) * (PI / 180)) with ((longitude - office_lng) * PI / 180) by lra.
  replace (office_lat * (PI / 180)) with (office_lat * PI / 180) by lra.
  replace (latitude * (PI / 180)) with (latitude * PI / 180) by lra.
  reflexivity.
Qed.

(** Lines 79-84 in exact arithmetic: the run returns for all four values,
    and it returns the value of the formula. *)
Lemma haversine_distance_m_exact (latitude longitude office_lat office_lng : R) :
  haversine_distance_m latitude longitude office_lat office_lng
  = Return (haversine_formula office_lat office_lng latitude longitude).
Proof.
  unfold haversine_distance_m. cbn -[pow].
  change (Pos.to_nat 2) with 2%nat. rewrite exact_a.
  pose proof (haversine_a_range office_lat office_lng latitude longitude) as [Hlo Hhi].
  set (a := haversine_a office_lat office_lng latitude longitude) in *.
  destruct (Rlt_dec a 0) as [Hneg|_]; [lra|]. cbn.
  destruct (Rlt_dec (1 - a) 0) as [Hneg|_]; [lra|]. cbn.
  unfold mret, res_ret, haversine_formula. fold a. f_equal. ring.
Qed.

Lemma haversine_formula_sym (lat1 lon1 lat2 lon2 : R) :
  haversine_formula lat1 lon1 lat2 lon2 = haversine_formula lat2 lon2 lat1 lon1.
Proof. unfold haversine_formula. rewrite haversine_a_sym. reflexivity. Qed.

End Exact.

(** C3.  With the three settings of the geofence numeric, the distance that
    the pipeline compares with the radius is the result of lines 79-84,
    [haversine_distance_m], on the submitted [(latitude, longitude)] and the
    office [(office_lat, office_lng)].  That expression is the haversine
    formula on a sphere of radius 6,371,000 m: evaluated without rounding it
    returns, for all four values in degrees,
    [distance = 2·R·atan2(√a, √(1−a))] with
    [a = sin²(Δlat/2) + cos(lat1)·cos(lat2)·sin²(Δlon/2)], the deltas (and
    the two latitudes) being converted to radians.  The formula is
    symmetric, so it does not matter which point is called the first.  The
    pipeline evaluates the expression on binary64 floats, which round every
    operation. *)
Theorem distance_is_haversine `{!Runtime} (W : World) (payload : AttendanceIn.t)
    (office_lat office_lng office_radius : float) :
  office_setting W "OFFICE_LAT" = Return (Some office_lat) →
  office_setting W "OFFICE_LNG" = Return (Some office_lng) →
  office_setting W "OFFICE_RADIUS_M" = Return (Some office_radius) →
  geofence_check W payload
  = try_except
      (dist_m ← haversine_distance_m
                 (AttendanceIn.latitude payload) (AttendanceIn.longitude payload)
                 office_lat office_lng;
       if (dist_m <=? office_radius)%float then Return (Some true)
       else Raise (HTTPException 400 (geofence_detail dist_m office_radius)))
      (λ e, if is_ValueError e then Return None else Raise e) ∧
  ∀ lat1 lon1 lat2 lon2 : R,
    haversine_distance_m lat2 lon2 lat1 lon1
    = Return (2 * 6371000 *
              Ratan2 (R_sqrt.sqrt (haversine_a lat1 lon1 lat2 lon2))
                     (R_sqrt.sqrt (1 - haversine_a lat1 lon1 lat2 lon2)))%R ∧
    haversine_a lat1 lon1 lat2 lon2
    = ((Rtrigo_def.sin ((lat2 - lat1) * PI / 180 / 2))² +
       Rtrigo_def.cos (lat1 * PI / 180) * Rtrigo_def.cos (lat2 * PI / 180) *
       (Rtrigo_def.sin ((lon2 - lon1) * PI / 180 / 2))²)%R ∧
    haversine_distance_m lat2 lon2 lat1 lon1 = haversine_distance_m lat1 lon1 lat2 lon2.
Proof.
  intros Hlat Hlng Hrad. split.
  - apply geofence_check_configured; assumption.
  - intros lat1 lon1 lat2 lon2. split; [|split].
    + apply haversine_distance_m_exact.
    + reflexivity.
    + rewrite !haversine_distance_m_exact. f_equal. apply haversine_formula_sym.
Qed.

Lemma distance_is_haversine_witness :
  geofence_check (Demo.world Demo.office (Return Demo.html_200) (Return "6543f0"))
                 Demo.far_away
  = Raise (HTTPException 400 "Outside geofence (distance 1111.9 m > 100 m)") ∧
  haversine_distance_m 0%R 0%R 0%R 0%R
  = Return (2 * 6371000 *
            Ratan2 (R_sqrt.sqrt (haversine_a 0 0 0 0))
                   (R_sqrt.sqrt (1 - haversine_a 0 0 0 0)))%R.
Proof.
  destruct (distance_is_haversine
              (Demo.world Demo.office (Return Demo.html_200) (Return "6543f0"))
              Demo.far_away 0 0 100)
    as (Hcheck & Hexact); [reflexivity..|].
  split.
  - rewrite Hcheck. reflexivity.
  - apply Hexact.
Defined.

(** ** Runs of the model *)

(** Section 8 of the specification, scenario 7: a fix of 10 m and no
    geofence in the environment. *)
Example no_geofence_configured :
  ∃ r,
    run (submit_attendance (Demo.world ∅ (Return Demo.html_200) (Return "6543f0"))
                           Demo.far_away)
    = (Return r,
       [PersistenceWrite "attendancerecord"
          (AttendanceRecord.mk "Ada" "ada@example.com" "2025-11-03" "09:05:30"
             0 0x1.47ae147ae147bp-7 10 None None None)]) ∧
    Result.success r = true ∧
    Data.id (Result.data r) = Some "6543f0" ∧
    Data.geofence_ok (Result.data r) = None.
Proof. eexists. repeat split. Qed.

(** A forward that succeeds: the month tab of the posted body and the photo
    URL of the answer. *)
Example forwarded_with_photo :
  let answer :=
    Response.mk 200 "{}"
      (Return (JDict (<["photo_url" := JStr "https://drive.example/p.jpg"]> ∅))) in
  ∃ r body,
    run (submit_attendance (Demo.world Demo.forwarding (Return answer) (Return "6543f0"))
                           Demo.at_office)
    = (Return r,
       [ForwarderCall "https://script.example/exec" body 15;
        PersistenceWrite "attendancerecord"
          (AttendanceRecord.mk "Ada" "ada@example.com" "2025-11-03" "09:05:30"
             0 0 10 None (Some true) None)]) ∧
    gs_payload.month_tab body = "Nov-2025" ∧
    Data.apps_script_forwarded (Result.data r) = true ∧
    Data.photo_url (Result.data r) = JStr "https://drive.example/p.jpg".
Proof. eexists _, _. repeat split. Qed.


(** * Further properties of the code *)

(** ** Every run of [submit_attendance] *)

(** A run either raises at one of the two gates, before any sink call, or
    passes both and is the run of lines 92-164. *)
Lemma submit_run_cases `{!Runtime} (W : World) (payload : AttendanceIn.t) :
  (∃ e, run (submit_attendance W payload) = (Raise e, [])) ∨
  (∃ g, passed_gates W payload g ∧
        run (submit_attendance W payload) = run (dispatch W payload g)).
Proof.
  unfold run, submit_attendance, passed_gates, mbind, io_bind, lift.
  destruct (max_allowed_accuracy W) as [m|e]; [|left; exists e; reflexivity].
  destruct (check_accuracy payload m) as [[]|e] eqn:Hacc; [|left; exists e; reflexivity].
  destruct (geofence_check W payload) as [g|e]; [|left; exists e; reflexivity].
  right. exists g. split; [exists m; auto | reflexivity].
Qed.

(** The two shapes of a run of lines 92-164. *)
Lemma dispatch_run_cases `{!Runtime} (W : World) (payload : AttendanceIn.t) (g : option bool) :
  (env_flag W "APPS_SCRIPT_URL" = false ∧
   run (dispatch W payload g)
   = (Return (build_response W (build_record W payload g)
                (persist_outcome W (build_record W payload g)) JNull false None),
      [PersistenceWrite "attendancerecord" (build_record W payload g)])) ∨
  (∃ url photo forwarded error,
     getenv W "APPS_SCRIPT_URL" = Some url ∧ str_truthy url = true ∧
     env_flag W "APPS_SCRIPT_URL" = true ∧
     forward_outcome W (build_record W payload g) url = (photo, forwarded, error) ∧
     run (dispatch W payload g)
     = (Return (build_response W (build_record W payload g)
                  (persist_outcome W (build_record W payload g)) photo forwarded error),
        [ForwarderCall url (build_gs_payload W (build_record W payload g)) 15;
         PersistenceWrite "attendancerecord" (build_record W payload g)])).
Proof.
  unfold run, env_flag.
  destruct (getenv W "APPS_SCRIPT_URL") as [url|] eqn:Hurl.
  - destruct (str_truthy url) eqn:Hne.
    + right. rewrite (dispatch_called W payload g url) by assumption. cbv zeta.
      destruct (forward_outcome W (build_record W payload g) url)
        as [[photo forwarded] error] eqn:Hout.
      exists url, photo, forwarded, error. auto.
    + left. destruct url; [|discriminate].
      rewrite dispatch_skipped by auto. auto.
  - left. rewrite dispatch_skipped by auto. auto.
Qed.

(** X1.  A run that raises has made no sink call.  A run that returns has
    written the record once to the collection "attendancerecord", and before
    that has called the endpoint at most once, with a timeout of 15 s and
    only if [APPS_SCRIPT_URL] is set and not empty; there is no other sink
    call and no retry. *)
Theorem sink_calls_of_a_run `{!Runtime} (W : World) (payload : AttendanceIn.t) :
  (∀ e log, run (submit_attendance W payload) = (Raise e, log) → log = []) ∧
  (∀ r log, run (submit_attendance W payload) = (Return r, log) →
     ∃ record,
       record = build_record W payload (Data.geofence_ok (Result.data r)) ∧
       ((env_flag W "APPS_SCRIPT_URL" = false ∧
         log = [PersistenceWrite "attendancerecord" record]) ∨
        (∃ url, getenv W "APPS_SCRIPT_URL" = Some url ∧ str_truthy url = true ∧
                log = [ForwarderCall url (build_gs_payload W record) 15;
                       PersistenceWrite "attendancerecord" record]))).
Proof.
  destruct (submit_run_cases W payload) as [[e He]|(g & _ & Hrun)].
  - rewrite He. split; [intros e' log [= _ <-]; reflexivity | intros r log [=]].
  - rewrite Hrun.
    destruct (dispatch_run_cases W payload g)
      as [[Hoff ->]|(url & photo & fw & err & Hurl & Hne & _ & _ & ->)].
    + split; [intros e log [=]|]. intros r log [= <- <-].
      eexists. split; [reflexivity|]. left. auto.
    + split; [intros e log [=]|]. intros r log [= <- <-].
      eexists. split; [reflexivity|]. right. exists url. auto.
Qed.

Lemma sink_calls_of_a_run_witness :
  ∃ r,
    run (submit_attendance (Demo.world Demo.forwarding (Return Demo.error_500) (Return "6543f0"))
                           Demo.at_office)
    = (Return r,
       [ForwarderCall "https://script.example/exec"
          (build_gs_payload (Demo.world Demo.forwarding (Return Demo.error_500) (Return "6543f0"))
             (build_record (Demo.world Demo.forwarding (Return Demo.error_500) (Return "6543f0"))
                Demo.at_office (Some true))) 15;
        PersistenceWrite "attendancerecord"
          (build_record (Demo.world Demo.forwarding (Return Demo.error_500) (Return "6543f0"))
             Demo.at_office (Some true))]).
Proof.
  destruct (sink_calls_of_a_run
              (Demo.world Demo.forwarding (Return Demo.error_500) (Return "6543f0"))
              Demo.at_office) as [_ Hreturned].
  edestruct Hreturned as (record & -> & [[Hoff _]|(url & Hurl & _ & Hlog)]);
    [reflexivity|discriminate Hoff|].
  eexists. reflexivity.
Defined.

(** X2.  In every response, a forward that is reported as done carries no
    error detail, an error detail means the forward is reported as not done,
    and a photo URL is present only when the forward is reported as done. *)
Theorem forward_fields_agree `{!Runtime} (W : World) (payload : AttendanceIn.t)
    (r : Result.t) (log : list event) :
  run (submit_attendance W payload) = (Return r, log) →
  (Data.apps_script_forwarded (Result.data r) = true →
   Data.apps_script_error (Result.data r) = None) ∧
  (Data.apps_script_error (Result.data r) ≠ None →
   Data.apps_script_forwarded (Result.data r) = false) ∧
  (Data.photo_url (Result.data r) ≠ JNull →
   Data.apps_script_forwarded (Result.data r) = true).
Proof.
  destruct (submit_run_cases W payload) as [[e He]|(g & _ & Hrun)].
  - rewrite He. discriminate.
  - rewrite Hrun.
    destruct (dispatch_run_cases W payload g)
      as [[_ ->]|(url & photo & fw & err & _ & _ & _ & Hout & ->)].
    + intros [= <- _]. cbn. repeat split; congruence.
    + intros [= <- _]. cbn. unfold forward_outcome in Hout.
      destruct (requests_post W url _ 15) as [resp|e].
      * destruct (Response.status_code resp =? 200)%Z;
          injection Hout as <- <- <-; repeat split; congruence.
      * injection Hout as <- <- <-. repeat split; congruence.
Qed.

Lemma forward_fields_agree_witness :
  ∃ r log,
    run (submit_attendance (Demo.world Demo.forwarding (Return Demo.error_500) (Return "6543f0"))
                           Demo.at_office) = (Return r, log) ∧
    Data.apps_script_forwarded (Result.data r) = false.
Proof.
  eexists _, _. split; [reflexivity|].
  eapply (forward_fields_agree
            (Demo.world Demo.forwarding (Return Demo.error_500) (Return "6543f0"))
            Demo.at_office); [reflexivity|discriminate].
Defined.

(** X3.  For a submission that has passed both gates with the forwarder
    configured, the response reports the forward as done exactly when the
    endpoint answered, and answered with status 200. *)
Theorem forwarded_iff_status_200 `{!Runtime} (W : World) (payload : AttendanceIn.t)
    (g : option bool) (url : string) :
  passed_gates W payload g →
  getenv W "APPS_SCRIPT_URL" = Some url →
  str_truthy url = true →
  ∃ r log,
    run (submit_attendance W payload) = (Return r, log) ∧
    (Data.apps_script_forwarded (Result.data r) = true ↔
     ∃ resp,
       requests_post W url (build_gs_payload W (build_record W payload g)) 15 = Return resp ∧
       Response.status_code resp = 200%Z).
Proof.
  intros Hgates Hurl Hne. unfold run.
  rewrite (submit_passed W payload g) by exact Hgates.
  rewrite (dispatch_called W payload g url) by assumption. cbv zeta.
  unfold forward_outcome.
  destruct (requests_post W url _ 15) as [resp|e].
  - destruct (Response.status_code resp =? 200)%Z eqn:Hstatus.
    + eexists _, _. split; [reflexivity|]. cbn. split; [|reflexivity].
      intros _. exists resp. split; [reflexivity|]. by apply Z.eqb_eq.
    + eexists _, _. split; [reflexivity|]. cbn. split; [discriminate|].
      intros (resp' & [= <-] & H200). apply Z.eqb_neq in Hstatus. contradiction.
  - eexists _, _. split; [reflexivity|]. cbn. split; [discriminate|].
    intros (resp & [=] & _).
Qed.

Lemma forwarded_iff_status_200_witness :
  ∃ r log,
    run (submit_attendance (Demo.world Demo.forwarding (Return Demo.html_200) (Return "6543f0"))
                           Demo.at_office) = (Return r, log) ∧
    Data.apps_script_forwarded (Result.data r) = true.
Proof.
  destruct (forwarded_iff_status_200
              (Demo.world Demo.forwarding (Return Demo.html_200) (Return "6543f0"))
              Demo.at_office (Some true) "https://script.example/exec")
    as (r & log & Hrun & Hiff).
  - exists 50%float. repeat split; reflexivity.
  - reflexivity.
  - reflexivity.
  - exists r, log. split; [exact Hrun|]. apply Hiff.
    exists Demo.html_200. split; reflexivity.
Defined.

(** X4.  When the endpoint answers 200 with a body that parses, the photo
    URL of the response is read from a JSON object only: its "photoUrl"
    entry if that is truthy, otherwise its "photo_url" entry, otherwise
    null.  An empty or null "photoUrl" therefore yields to "photo_url", and a
    body that is not an object gives null; the forward is reported as done
    either way. *)
Theorem photo_url_precedence `{!Runtime} (W : World) (payload : AttendanceIn.t)
    (g : option bool) (url : string) (resp : Response.t) (data : json) :
  passed_gates W payload g →
  getenv W "APPS_SCRIPT_URL" = Some url →
  str_truthy url = true →
  requests_post W url (build_gs_payload W (build_record W payload g)) 15 = Return resp →
  Response.status_code resp = 200%Z →
  Response.json resp = Return data →
  ∃ r log,
    run (submit_attendance W payload) = (Return r, log) ∧
    Data.apps_script_forwarded (Result.data r) = true ∧
    Data.apps_script_error (Result.data r) = None ∧
    Data.photo_url (Result.data r)
    = match data with
      | JDict d =>
          if json_truthy (default JNull (d !! "photoUrl"))
          then default JNull (d !! "photoUrl")
          else default JNull (d !! "photo_url")
      | _ => JNull
      end.
Proof.
  intros Hgates Hurl Hne Hanswer Hstatus Hbody. unfold run.
  rewrite (submit_passed W payload g) by exact Hgates.
  rewrite (dispatch_called W payload g url) by assumption. cbv zeta.
  unfold forward_outcome. rewrite Hanswer.
  apply Z.eqb_eq in Hstatus. rewrite Hstatus.
  eexists _, _. split; [reflexivity|]. split; [reflexivity|]. split; [reflexivity|].
  cbn. unfold photo_url_from. rewrite Hbody. cbn. unfold photo_url_of.
  destruct data as [| | | | | |d]; try reflexivity. cbn.
  destruct (json_truthy (default JNull (d !! "photoUrl"))); reflexivity.
Qed.

Lemma photo_url_precedence_witness :
  ∃ r log,
    run (submit_attendance
           (Demo.world Demo.forwarding
              (Return (Response.mk 200 "{}"
                         (Return (JDict (<["photoUrl" := JStr EmptyString]>
                                           (<["photo_url" := JStr "https://drive.example/p.jpg"]>
                                              ∅))))))
              (Return "6543f0"))
           Demo.at_office) = (Return r, log) ∧
    Data.photo_url (Result.data r) = JStr "https://drive.example/p.jpg".
Proof.
  edestruct (photo_url_precedence
               (Demo.world Demo.forwarding
                  (Return (Response.mk 200 "{}"
                             (Return (JDict (<["photoUrl" := JStr EmptyString]>
                                               (<["photo_url" := JStr "https://drive.example/p.jpg"]>
                                                  ∅))))))
                  (Return "6543f0"))
               Demo.at_office (Some true) "https://script.example/exec")
    as (r & log & Hrun & _ & _ & Hphoto).
  - exists 50%float. repeat split; reflexivity.
  - reflexivity.
  - reflexivity.
  - reflexivity.
  - reflexivity.
  - reflexivity.
  - exists r, log. split; [exact Hrun|]. rewrite Hphoto. reflexivity.
Defined.

(** X5.  A response echoes the coordinates and the accuracy of the
    submission and the server's date and time.  Every record written to the
    store and every body posted to the endpoint carries the submission's
    name, email, coordinates, accuracy and photo unchanged, the same date,
    time and verdict as the response, and, for the record, a null
    [photo_url]. *)
Theorem sinks_carry_the_submission `{!Runtime} (W : World) (payload : AttendanceIn.t)
    (r : Result.t) (log : list event) :
  run (submit_attendance W payload) = (Return r, log) →
  (Data.latitude (Result.data r) = AttendanceIn.latitude payload ∧
   Data.longitude (Result.data r) = AttendanceIn.longitude payload ∧
   Data.accuracy_m (Result.data r) = AttendanceIn.accuracy_m payload ∧
   Data.date (Result.data r) = strftime (datetime_now W) "%Y-%m-%d" ∧
   Data.time (Result.data r) = strftime (datetime_now W) "%H:%M:%S") ∧
  (∀ collection record, PersistenceWrite collection record ∈ log →
     AttendanceRecord.name record = AttendanceIn.name payload ∧
     AttendanceRecord.email record = AttendanceIn.email payload ∧
     AttendanceRecord.latitude record = AttendanceIn.latitude payload ∧
     AttendanceRecord.longitude record = AttendanceIn.longitude payload ∧
     AttendanceRecord.accuracy_m record = AttendanceIn.accuracy_m payload ∧
     AttendanceRecord.raw_photo_base64 record = AttendanceIn.photo_base64 payload ∧
     AttendanceRecord.photo_url record = None ∧
     AttendanceRecord.date record = Data.date (Result.data r) ∧
     AttendanceRecord.time record = Data.time (Result.data r) ∧
     AttendanceRecord.geofence_ok record = Data.geofence_ok (Result.data r)) ∧
  (∀ url body timeout, ForwarderCall url body timeout ∈ log →
     gs_payload.name body = AttendanceIn.name payload ∧
     gs_payload.email body = AttendanceIn.email payload ∧
     gs_payload.latitude body = AttendanceIn.latitude payload ∧
     gs_payload.longitude body = AttendanceIn.longitude payload ∧
     gs_payload.accuracy_m body = AttendanceIn.accuracy_m payload ∧
     gs_payload.photo_base64 body = AttendanceIn.photo_base64 payload ∧
     gs_payload.month_tab body = strftime (datetime_now W) "%b-%Y" ∧
     gs_payload.date body = Data.date (Result.data r) ∧
     gs_payload.time body = Data.time (Result.data r) ∧
     gs_payload.geofence_ok body = Data.geofence_ok (Result.data r)).
Proof.
  destruct (submit_run_cases W payload) as [[e He]|(g & _ & Hrun)].
  - rewrite He. discriminate.
  - rewrite Hrun.
    destruct (dispatch_run_cases W payload g)
      as [[_ ->]|(url & photo & fw & err & _ & _ & _ & _ & ->)];
      intros [= <- <-]; (split; [repeat split|]); split.
    + intros c rec Hin. apply list_elem_of_singleton in Hin as [= -> ->]. repeat split.
    + intros u b t Hin. apply list_elem_of_singleton in Hin. discriminate Hin.
    + intros c rec Hin.
      apply elem_of_cons in Hin as [Hin|Hin]; [discriminate Hin|].
      apply list_elem_of_singleton in Hin as [= -> ->]. repeat split.
    + intros u b t Hin.
      apply elem_of_cons in Hin as [[= -> -> ->]|Hin]; [repeat split|].
      apply list_elem_of_singleton in Hin. discriminate Hin.
Qed.

Lemma sinks_carry_the_submission_witness :
  ∃ r log,
    run (submit_attendance
           (Demo.world (<["APPS_SCRIPT_URL" := "https://script.example/exec"]> ∅)
                       (Return Demo.html_200) (Return "6543f0"))
           Demo.far_away) = (Return r, log) ∧
    Data.longitude (Result.data r) = 0x1.47ae147ae147bp-7%float.
Proof.
  eexists _, _. split; [reflexivity|].
  edestruct (sinks_carry_the_submission
               (Demo.world (<["APPS_SCRIPT_URL" := "https://script.example/exec"]> ∅)
                           (Return Demo.html_200) (Return "6543f0"))
               Demo.far_away) as [(_ & Hlon & _) _]; [reflexivity|].
  exact Hlon.
Defined.

(** ** What [info] announces *)

(** X6.  [info] reports [apps_script_configured] as true exactly when a
    submission that passes both gates makes a call to the endpoint: an
    [APPS_SCRIPT_URL] that is set to the empty string counts as not
    configured in both functions, and then the response reports no forward
    and no error. *)
Theorem info_announces_forwarding `{!Runtime} (W : World) (payload : AttendanceIn.t)
    (g : option bool) :
  passed_gates W payload g →
  ∃ r log,
    run (submit_attendance W payload) = (Return r, log) ∧
    (Info.apps_script_configured (info W) = true ↔
     ∃ url body timeout, ForwarderCall url body timeout ∈ log) ∧
    (Info.apps_script_configured (info W) = false →
     Data.apps_script_forwarded (Result.data r) = false ∧
     Data.apps_script_error (Result.data r) = None) ∧
    (getenv W "APPS_SCRIPT_URL" = Some EmptyString →
     Info.apps_script_configured (info W) = false).
Proof.
  intros Hgates. unfold run. rewrite (submit_passed W payload g) by exact Hgates.
  assert (Hempty : getenv W "APPS_SCRIPT_URL" = Some EmptyString →
                   Info.apps_script_configured (info W) = false)
    by (cbn; unfold env_flag; intros ->; reflexivity).
  change (Info.apps_script_configured (info W)) with (env_flag W "APPS_SCRIPT_URL") in *.
  destruct (dispatch_run_cases W payload g)
    as [[Hoff Hrun]|(url & photo & fw & err & _ & _ & Hon & _ & Hrun)];
    unfold run in Hrun; rewrite Hrun; eexists _, _; (split; [reflexivity|]).
  - rewrite Hoff. split; [|split; [auto|reflexivity]]. split; [discriminate|].
    intros (u & b & t & Hin). apply list_elem_of_singleton in Hin. discriminate Hin.
  - split; [|split; [rewrite Hon; discriminate|exact Hempty]].
    rewrite Hon. split; [|reflexivity].
    intros _. eexists _, _, _. apply list_elem_of_here.
Qed.

Lemma info_announces_forwarding_witness :
  Info.apps_script_configured
    (info (Demo.world (<["APPS_SCRIPT_URL" := EmptyString]> Demo.office)
                      (Return Demo.html_200) (Return "6543f0")))
  = false.
Proof.
  destruct (info_announces_forwarding
              (Demo.world (<["APPS_SCRIPT_URL" := EmptyString]> Demo.office)
                          (Return Demo.html_200) (Return "6543f0"))
              Demo.at_office (Some true))
    as (r & log & _ & _ & _ & Hempty).
  - exists 50%float. repeat split; reflexivity.
  - apply Hempty. reflexivity.
Defined.

(** X7.  The [dashboard_url] of every response is the
    [sheets_dashboard_url] that [info] reports: the value of
    [SHEETS_DASHBOARD_URL] when it is set and not empty, and null otherwise,
    never the empty string. *)
Theorem dashboard_url_of_a_response `{!Runtime} (W : World) (payload : AttendanceIn.t)
    (r : Result.t) (log : list event) :
  run (submit_attendance W payload) = (Return r, log) →
  Result.dashboard_url r = Info.sheets_dashboard_url (info W) ∧
  Result.dashboard_url r ≠ Some EmptyString ∧
  (∀ s, Result.dashboard_url r = Some s ↔
        getenv W "SHEETS_DASHBOARD_URL" = Some s ∧ str_truthy s = true).
Proof.
  assert (Hd : dashboard W ≠ Some EmptyString ∧
               ∀ s, dashboard W = Some s ↔
                    getenv W "SHEETS_DASHBOARD_URL" = Some s ∧ str_truthy s = true).
  { unfold dashboard. destruct (getenv W "SHEETS_DASHBOARD_URL") as [s|].
    - destruct (str_truthy s) eqn:Hs.
      + split; [intros [= ->]; discriminate|]. intros s'. split.
        * intros [= <-]. auto.
        * intros [[= <-] _]. reflexivity.
      + split; [discriminate|]. intros s'. split; [discriminate|].
        intros [[= <-] Hs']. congruence.
    - split; [discriminate|]. intros s'. split; [discriminate|]. intros [[=] _]. }
  destruct (submit_run_cases W payload) as [[e He]|(g & _ & Hrun)].
  - rewrite He. discriminate.
  - rewrite Hrun.
    destruct (dispatch_run_cases W payload g)
      as [[_ ->]|(url & photo & fw & err & _ & _ & _ & _ & ->)];
      intros [= <- _]; cbn; (split; [reflexivity|exact Hd]).
Qed.

Lemma dashboard_url_of_a_response_witness :
  ∃ r log,
    run (submit_attendance
           (Demo.world (<["SHEETS_DASHBOARD_URL" := EmptyString]> Demo.office)
                       (Return Demo.html_200) (Return "6543f0"))
           Demo.at_office) = (Return r, log) ∧
    Result.dashboard_url r = None.
Proof.
  eexists _, _. split; [reflexivity|].
  edestruct (dashboard_url_of_a_response
               (Demo.world (<["SHEETS_DASHBOARD_URL" := EmptyString]> Demo.office)
                           (Return Demo.html_200) (Return "6543f0"))
               Demo.at_office) as (Hinfo & _); [reflexivity|].
  rewrite Hinfo. reflexivity.
Defined.

(** X8.  A geofence that takes effect is one that [info] shows in full: if
    the block of lines 71-90 gives the verdict [True] or rejects with the
    detail of line 87, then [info] reports three non-empty strings that
    [float] accepts.  (The converse fails: [info] shows the raw strings,
    accepted by [float] or not.) *)
Theorem enforced_geofence_is_announced `{!Runtime} (W : World) (payload : AttendanceIn.t) :
  (geofence_check W payload = Return (Some true) ∨
   ∃ dist_m office_radius,
     geofence_check W payload
     = Raise (HTTPException 400 (geofence_detail dist_m office_radius))) →
  ∃ lat lng radius_m,
    Info.geofence (info W) = Geofence.mk (Some lat) (Some lng) (Some radius_m) ∧
    (str_truthy lat = true ∧ is_Some (float_of_str lat)) ∧
    (str_truthy lng = true ∧ is_Some (float_of_str lng)) ∧
    (str_truthy radius_m = true ∧ is_Some (float_of_str radius_m)).
Proof.
  intros Henforced.
  assert (Hall : ∀ k, k ∈ ["OFFICE_LAT"; "OFFICE_LNG"; "OFFICE_RADIUS_M"] →
                      ∃ x, office_setting W k = Return (Some x)).
  { intros k Hk.
    destruct (office_setting_cases W k) as [Hx|Hbad]; [exact Hx|exfalso].
    assert (Hnone : geofence_check W payload = Return None).
    { unfold geofence_check.
      destruct (office_setting_cases W "OFFICE_LAT") as [[lat Hlat]|[Hlat|Hlat]];
      destruct (office_setting_cases W "OFFICE_LNG") as [[lng Hlng]|[Hlng|Hlng]];
      destruct (office_setting_cases W "OFFICE_RADIUS_M") as [[rad Hrad]|[Hrad|Hrad]];
      rewrite ?Hlat; cbn; rewrite ?Hlng; cbn; rewrite ?Hrad; cbn; try reflexivity.
      exfalso. repeat (apply elem_of_cons in Hk as [-> | Hk]; [destruct Hbad; congruence|]).
      by apply elem_of_nil in Hk. }
    rewrite Hnone in Henforced.
    destruct Henforced as [[=]|(d & rad & [=])]. }
  destruct (Hall "OFFICE_LAT") as [x1 H1]; [repeat constructor|].
  destruct (Hall "OFFICE_LNG") as [x2 H2]; [repeat constructor|].
  destruct (Hall "OFFICE_RADIUS_M") as [x3 H3]; [repeat constructor|].
  apply office_setting_numeric in H1 as (s1 & E1 & T1 & P1).
  apply office_setting_numeric in H2 as (s2 & E2 & T2 & P2).
  apply office_setting_numeric in H3 as (s3 & E3 & T3 & P3).
  exists s1, s2, s3. cbn. rewrite E1, E2, E3, P1, P2, P3. repeat split; eauto.
Qed.

Lemma enforced_geofence_is_announced_witness :
  Info.geofence (info (Demo.world Demo.office (Return Demo.html_200) (Return "6543f0")))
  = Geofence.mk (Some "0") (Some "0") (Some "100").
Proof.
  destruct (enforced_geofence_is_announced
              (Demo.world Demo.office (Return Demo.html_200) (Return "6543f0"))
              Demo.at_office) as (lat & lng & rad & Hinfo & _).
  - left. reflexivity.
  - reflexivity.
Defined.

(** ** Edge cases of the two gates *)

Lemma SFcompare_refl (p : spec_float) : p ≠ S754_nan → SFcompare p p = Some Eq.
Proof.
  destruct p as [s|s| |s m e]; intros Hp; try congruence; unfold SFcompare.
  - reflexivity.
  - destruct s; reflexivity.
  - rewrite Z.compare_refl.
    change (Pos.compare_cont Eq m m) with (m ?= m)%positive.
    rewrite Pos.compare_refl. destruct s; reflexivity.
Qed.

Lemma is_nan_Prim2SF (x : float) : is_nan x = true ↔ Prim2SF x = S754_nan.
Proof.
  unfold is_nan. rewrite FloatAxioms.eqb_spec. unfold SFeqb. split.
  - intros Hx. destruct (Prim2SF x) eqn:Hp; try reflexivity;
      rewrite SFcompare_refl in Hx by discriminate; discriminate.
  - intros ->. reflexivity.
Qed.

(** Every comparison with a NaN is false. *)
Lemma float_nan_compare (x y : float) :
  is_nan x = true ∨ is_nan y = true →
  (x <=? y)%float = false ∧ (x <? y)%float = false.
Proof.
  rewrite !is_nan_Prim2SF, leb_spec, ltb_spec. unfold SFleb, SFltb.
  intros [-> | ->]; [|destruct (Prim2SF x)]; auto.
Qed.

(** [math.sqrt] of a negative number raises. *)
Lemma math_sqrt_negative (x : float) :
  (x <? 0)%float = true → math_sqrt x = Raise (ValueError "math domain error").
Proof.
  intros Hneg. unfold math_sqrt.
  assert (Hr : is_nan (PrimFloat.sqrt x) = true ∧ is_nan x = false).
  { rewrite ltb_spec in Hneg. change (Prim2SF 0) with (S754_zero false) in Hneg.
    split.
    - apply is_nan_Prim2SF. rewrite sqrt_spec. unfold SF64sqrt.
      destruct (Prim2SF x) as [[]|[]| |[] m e]; try discriminate; reflexivity.
    - destruct (is_nan x) eqn:Hx; [|reflexivity].
      apply is_nan_Prim2SF in Hx. rewrite Hx in Hneg. discriminate. }
  destruct Hr as [-> ->]. reflexivity.
Qed.

(** A setting that is not a number switches the check off. *)
Lemma geofence_check_off `{!Runtime} (W : World) (payload : AttendanceIn.t) (k : string) :
  k ∈ ["OFFICE_LAT"; "OFFICE_LNG"; "OFFICE_RADIUS_M"] →
  (∀ x, office_setting W k ≠ Return (Some x)) →
  geofence_check W payload = Return None.
Proof.
  intros Hk Hbad. unfold geofence_check.
  destruct (office_setting_cases W "OFFICE_LAT") as [[lat Hlat]|[Hlat|Hlat]];
  destruct (office_setting_cases W "OFFICE_LNG") as [[lng Hlng]|[Hlng|Hlng]];
  destruct (office_setting_cases W "OFFICE_RADIUS_M") as [[rad Hrad]|[Hrad|Hrad]];
  rewrite ?Hlat; cbn; rewrite ?Hlng; cbn; rewrite ?Hrad; cbn; try reflexivity.
  exfalso.
  repeat (apply elem_of_cons in Hk as [-> | Hk]; [eapply Hbad; eassumption|]).
  by apply elem_of_nil in Hk.
Qed.

(** X9.  A geofence setting that is set to the empty string counts as
    unset: whatever the other two settings are, the check is skipped with
    [geofence_ok = None], and [float] is not called on the empty string. *)
Theorem empty_setting_disables_geofence `{!Runtime} (W : World) (payload : AttendanceIn.t)
    (k : string) :
  k ∈ ["OFFICE_LAT"; "OFFICE_LNG"; "OFFICE_RADIUS_M"] →
  getenv W k = Some EmptyString →
  office_setting W k = Return None ∧
  geofence_check W payload = Return None.
Proof.
  intros Hk Hempty.
  assert (Hset : office_setting W k = Return None)
    by (unfold office_setting; rewrite Hempty; reflexivity).
  split; [exact Hset|].
  apply (geofence_check_off W payload k Hk). intros x. rewrite Hset. discriminate.
Qed.

Lemma empty_setting_disables_geofence_witness :
  geofence_check
    (Demo.world (<["OFFICE_LNG" := EmptyString]> Demo.office)
                (Return Demo.html_200) (Return "6543f0"))
    Demo.far_away
  = Return None.
Proof.
  apply (empty_setting_disables_geofence _ Demo.far_away "OFFICE_LNG").
  - repeat constructor.
  - reflexivity.
Defined.

(** X10.  The accuracy gate rejects nothing when the configured maximum is
    a NaN (["nan"] is a string that [float] accepts), and it lets a NaN
    accuracy through: [accuracy_m > max_accuracy] is then false. *)
Theorem nan_passes_accuracy_gate `{!Runtime} (payload : AttendanceIn.t) (max_accuracy : float) :
  is_nan max_accuracy = true ∨ is_nan (AttendanceIn.accuracy_m payload) = true →
  check_accuracy payload max_accuracy = Return ().
Proof.
  intros Hnan. unfold check_accuracy.
  destruct (float_nan_compare max_accuracy (AttendanceIn.accuracy_m payload) Hnan) as [_ ->].
  reflexivity.
Qed.

Lemma nan_passes_accuracy_gate_witness :
  @max_allowed_accuracy Strict.runtime
    (Demo.world (<["MAX_ALLOWED_ACCURACY_M" := "nan"]> ∅)
                (Return Demo.html_200) (Return "6543f0"))
  = Return nan ∧
  @check_accuracy Strict.runtime Demo.poor_fix nan = Return ().
Proof.
  split; [reflexivity|].
  apply (@nan_passes_accuracy_gate Strict.runtime Demo.poor_fix nan).
  left. reflexivity.
Defined.

(** X11.  With the three settings numeric and a distance computed, a radius
    or a distance that is a NaN rejects the submission: [dist_m <=
    office_radius] is false.  [OFFICE_RADIUS_M=nan] rejects every
    submission whose distance is computed. *)
Theorem nan_fails_geofence `{!Runtime} (W : World) (payload : AttendanceIn.t)
    (office_lat office_lng office_radius dist_m : float) :
  office_setting W "OFFICE_LAT" = Return (Some office_lat) →
  office_setting W "OFFICE_LNG" = Return (Some office_lng) →
  office_setting W "OFFICE_RADIUS_M" = Return (Some office_radius) →
  haversine_distance_m (AttendanceIn.latitude payload) (AttendanceIn.longitude payload)
                       office_lat office_lng = Return dist_m →
  is_nan office_radius = true ∨ is_nan dist_m = true →
  geofence_check W payload
  = Raise (HTTPException 400 (geofence_detail dist_m office_radius)).
Proof.
  intros Hlat Hlng Hrad Hdist Hnan.
  rewrite (geofence_check_configured W payload _ _ _ Hlat Hlng Hrad), Hdist. cbn.
  destruct (float_nan_compare dist_m office_radius) as [-> _]; [tauto|reflexivity].
Qed.

Lemma nan_fails_geofence_witness :
  @geofence_check Strict.runtime
    (Demo.world Strict.nan_radius (Return Demo.html_200) (Return "6543f0")) Demo.at_office
  = Raise (HTTPException 400 "Outside geofence (distance 0.0 m > 0 m)").
Proof.
  rewrite (@nan_fails_geofence Strict.runtime
             (Demo.world Strict.nan_radius (Return Demo.html_200) (Return "6543f0"))
             Demo.at_office 0 0 nan 0); [reflexivity..|left; reflexivity].
Defined.

(** X12.  With the three settings numeric, a [ValueError] raised anywhere in
    the distance computation of lines 79-84 (a math domain error) is caught
    at line 88: the check is skipped with [geofence_ok = None], and a
    submission that has passed the accuracy gate is accepted and written to
    the store. *)
Theorem domain_error_skips_geofence `{!Runtime} (W : World) (payload : AttendanceIn.t)
    (office_lat office_lng office_radius : float) (e : exn) :
  office_setting W "OFFICE_LAT" = Return (Some office_lat) →
  office_setting W "OFFICE_LNG" = Return (Some office_lng) →
  office_setting W "OFFICE_RADIUS_M" = Return (Some office_radius) →
  haversine_distance_m (AttendanceIn.latitude payload) (AttendanceIn.longitude payload)
                       office_lat office_lng = Raise e →
  is_ValueError e = true →
  geofence_check W payload = Return None ∧
  ∀ max_accuracy,
    max_allowed_accuracy W = Return max_accuracy →
    check_accuracy payload max_accuracy = Return () →
    ∃ r calls,
      run (submit_attendance W payload)
      = (Return r,
         calls ++ [PersistenceWrite "attendancerecord" (build_record W payload None)]) ∧
      Data.geofence_ok (Result.data r) = None.
Proof.
  intros Hlat Hlng Hrad Hdist He.
  assert (Hgeo : geofence_check W payload = Return None).
  { rewrite (geofence_check_configured W payload _ _ _ Hlat Hlng Hrad), Hdist. cbn.
    rewrite He. reflexivity. }
  split; [exact Hgeo|]. intros m Hmax Hacc.
  destruct (dispatch_returns W payload None []) as (r & calls & Hr & _ & Hg).
  exists r, calls. unfold run.
  rewrite (submit_passed W payload None) by (exists m; auto). rewrite Hr. auto.
Qed.

Lemma domain_error_skips_geofence_witness :
  @geofence_check Strict.runtime
    (Demo.world Demo.office (Return Demo.html_200) (Return "6543f0")) Strict.at_infinity
  = Return None.
Proof.
  edestruct (@domain_error_skips_geofence Strict.runtime
               (Demo.world Demo.office (Return Demo.html_200) (Return "6543f0"))
               Strict.at_infinity 0 0 100) as [Hskipped _]; [reflexivity..|].
  exact Hskipped.
Defined.

Lemma bind_Return {A B} (a : A) (f : A → res B) : (Return a ≫= f) = f a.
Proof. reflexivity. Qed.

(** X13.  On binary64 floats the value of [a] at line 82 is rounded.  If it
    comes out negative or above 1 (so that [1 - a] is negative), [math.sqrt]
    raises a [ValueError] at line 83 and, with the three settings numeric,
    the check is skipped with [geofence_ok = None] instead of giving a
    verdict. *)
Theorem a_out_of_range_skips_geofence `{!Runtime} (W : World) (payload : AttendanceIn.t)
    (office_lat office_lng office_radius s1 p1 c1 c2 s2 p2 : float) :
  office_setting W "OFFICE_LAT" = Return (Some office_lat) →
  office_setting W "OFFICE_LNG" = Return (Some office_lng) →
  office_setting W "OFFICE_RADIUS_M" = Return (Some office_radius) →
  math_sin ((AttendanceIn.latitude payload - office_lat) * degToRad / 2)%float = Return s1 →
  float_pow s1 2 = Return p1 →
  math_cos (office_lat * degToRad)%float = Return c1 →
  math_cos (AttendanceIn.latitude payload * degToRad)%float = Return c2 →
  math_sin ((AttendanceIn.longitude payload - office_lng) * degToRad / 2)%float = Return s2 →
  float_pow s2 2 = Return p2 →
  (p1 + c1 * c2 * p2 <? 0)%float = true ∨ (1 - (p1 + c1 * c2 * p2) <? 0)%float = true →
  haversine_distance_m (AttendanceIn.latitude payload) (AttendanceIn.longitude payload)
                       office_lat office_lng
  = Raise (ValueError "math domain error") ∧
  geofence_check W payload = Return None.
Proof.
  intros Hlat Hlng Hrad Hs1 Hp1 Hc1 Hc2 Hs2 Hp2 Hrange.
  assert (Hdist : haversine_distance_m
                    (AttendanceIn.latitude payload) (AttendanceIn.longitude payload)
                    office_lat office_lng
                  = Raise (ValueError "math domain error")).
  { rewrite haversine_distance_m_binary64, Hs1, bind_Return, Hp1, bind_Return, Hc1,
      bind_Return, Hc2, bind_Return, Hs2, bind_Return, Hp2, bind_Return.
    destruct Hrange as [Ha|Ha].
    - rewrite (math_sqrt_negative _ Ha). reflexivity.
    - rewrite (math_sqrt_negative _ Ha).
      destruct (math_sqrt (p1 + c1 * c2 * p2)) as [r1|e] eqn:Hr1; [reflexivity|].
      unfold math_sqrt in Hr1.
      destruct (is_nan _ && negb (is_nan _)); [injection Hr1 as <-; reflexivity|discriminate]. }
  split; [exact Hdist|].
  rewrite (geofence_check_configured W payload _ _ _ Hlat Hlng Hrad), Hdist. reflexivity.
Qed.

Lemma a_out_of_range_skips_geofence_witness :
  geofence_check
    (Demo.world (<["OFFICE_LAT" := "229"]> Demo.office) (Return Demo.html_200) (Return "6543f0"))
    (AttendanceIn.mk "Ada" "ada@example.com" 229 115 10 None)
  = Return None.
Proof.
  edestruct (a_out_of_range_skips_geofence
               (Demo.world (<["OFFICE_LAT" := "229"]> Demo.office)
                           (Return Demo.html_200) (Return "6543f0"))
               (AttendanceIn.mk "Ada" "ada@example.com" 229 115 10 None) 229 0 100)
    as [_ Hskipped]; [reflexivity..| |exact Hskipped].
  right. reflexivity.
Defined.

(** ** The distance in exact arithmetic *)

Section ExactDistance.
Local Open Scope R_scope.

(** In the quadrant of the two square roots the arc tangent lies between 0
    and a quarter turn. *)
Lemma Ratan2_quadrant (y x : R) : 0 <= y → 0 <= x → 0 <= Ratan2 y x <= PI / 2.
Proof.
  intros Hy Hx. pose proof PI_RGT_0 as Hpi. unfold Ratan2.
  destruct (Rlt_dec 0 x) as [Hpos|Hnpos].
  - pose proof (atan_bound (y / x)) as [_ Hup].
    assert (Hq : 0 <= y / x).
    { unfold Rdiv. apply Rmult_le_pos; [exact Hy|]. left. apply Rinv_0_lt_compat, Hpos. }
    split; [|lra].
    destruct Hq as [Hq|<-]; [|rewrite atan_0; lra].
    pose proof (atan_increasing 0 (y / x) Hq) as Hinc. rewrite atan_0 in Hinc. lra.
  - destruct (Rlt_dec x 0); [lra|].
    destruct (Rlt_dec 0 y); [lra|].
    destruct (Rlt_dec y 0); lra.
Qed.

(** X15.  Without rounding, lines 79-84 give the distance 0 for a
    submission at the coordinates of the office, whatever these are. *)
Theorem distance_to_itself (latitude longitude : R) :
  haversine_distance_m latitude longitude latitude longitude = Return 0.
Proof.
  rewrite haversine_distance_m_exact. f_equal.
  unfold haversine_formula.
  assert (Ha : haversine_a latitude longitude latitude longitude = 0).
  { unfold haversine_a, deg_to_rad.
    replace ((latitude - latitude) * PI / 180 / 2) with 0 by lra.
    replace ((longitude - longitude) * PI / 180 / 2) with 0 by lra.
    rewrite sin_0. unfold Rsqr. ring. }
  rewrite Ha, sqrt_0, Rminus_0_r, sqrt_1.
  unfold Ratan2. destruct (Rlt_dec 0 1) as [_|Hn]; [|lra].
  replace (0 / 1) with 0 by lra. rewrite atan_0. ring.
Qed.

(** X16.  Without rounding, lines 79-84 return for all coordinates a
    distance that is not negative and not more than half the circumference
    of the sphere, [6371000·π] metres. *)
Theorem distance_range (latitude longitude office_lat office_lng : R) :
  ∃ dist_m,
    haversine_distance_m latitude longitude office_lat office_lng = Return dist_m ∧
    0 <= dist_m <= 6371000 * PI.
Proof.
  eexists. split; [apply haversine_distance_m_exact|].
  unfold haversine_formula.
  pose proof (Ratan2_quadrant
                (R_sqrt.sqrt (haversine_a office_lat office_lng latitude longitude))
                (R_sqrt.sqrt (1 - haversine_a office_lat office_lng latitude longitude))
                (sqrt_pos _) (sqrt_pos _)) as [Hlo Hhi].
  split; nra.
Qed.

End ExactDistance.

(** ** The report of [test_database] *)

(** X17.  Whatever the state of the database, the report says that the
    backend is running, and its [database_url] and [database_name] say only
    whether [DATABASE_URL] and [DATABASE_NAME] are set and not empty: lines
    203-204 overwrite what lines 184-185 stored, so neither "Configured" nor
    the name of the database reaches the caller. *)
Theorem report_reads_the_environment (W : World) (imported : db_import) :
  Report.backend (test_database W imported) = "✅ Running" ∧
  Report.database_url (test_database W imported)
  = Some (if env_flag W "DATABASE_URL" then "✅ Set" else "❌ Not Set") ∧
  Report.database_name (test_database W imported)
  = Some (if env_flag W "DATABASE_NAME" then "✅ Set" else "❌ Not Set") ∧
  Report.database_url (test_database W imported) ≠ Some "✅ Configured" ∧
  (env_flag W "DATABASE_URL" = true ↔
   ∃ s, getenv W "DATABASE_URL" = Some s ∧ s ≠ EmptyString).
Proof.
  split; [|split; [|split; [|split]]].
  - destruct imported as [[db|]| |]; try reflexivity.
    unfold test_database. destruct (Database.list_collection_names db); reflexivity.
  - reflexivity.
  - reflexivity.
  - cbn. destruct (env_flag W "DATABASE_URL"); discriminate.
  - unfold env_flag. destruct (getenv W "DATABASE_URL") as [[|c s]|]; cbn.
    + split; [discriminate|]. intros (s & [= <-] & Hs). contradiction.
    + split; [|reflexivity]. intros _. eexists. split; [reflexivity|discriminate].
    + split; [discriminate|]. intros (s & [=] & _).
Qed.

(** X18.  The report lists at most ten collections: the first ten names
    that [list_collection_names] returns.  The list is empty unless the
    import succeeded, [db] is not [None] and the listing succeeded, and a
    non-empty list comes with the message "Connected & Working". *)
Theorem report_lists_ten_collections (W : World) (imported : db_import) :
  length (Report.collections (test_database W imported)) ≤ 10 ∧
  (∀ db names,
     imported = Imported (Some db) →
     Database.list_collection_names db = Return names →
     Report.collections (test_database W imported) = take 10 names) ∧
  (Report.collections (test_database W imported) ≠ [] →
   Report.database (test_database W imported) = "✅ Connected & Working" ∧
   ∃ db names,
     imported = Imported (Some db) ∧ Database.list_collection_names db = Return names).
Proof.
  destruct imported as [[db|]| |]; cbn.
  - destruct (Database.list_collection_names db) as [names|e] eqn:Hlist; cbn.
    + split; [rewrite length_take; lia|]. split.
      * intros db' names' [= <-] Hnames. congruence.
      * intros _. split; [reflexivity|]. eauto.
    + split; [lia|]. split; [intros db' names' [= <-]; congruence | congruence].
  - split; [lia|]. split; [discriminate | congruence].
  - split; [lia|]. split; [discriminate | congruence].
  - split; [lia|]. split; [discriminate | congruence].
Qed.

Lemma report_lists_ten_collections_witness :
  Report.collections
    (test_database (Demo.world ∅ (Return Demo.html_200) (Return "6543f0"))
                   (Imported (Some twelve_collections)))
  = ["c01"; "c02"; "c03"; "c04"; "c05"; "c06"; "c07"; "c08"; "c09"; "c10"].
Proof.
  destruct (report_lists_ten_collections
              (Demo.world ∅ (Return Demo.html_200) (Return "6543f0"))
              (Imported (Some twelve_collections))) as (_ & Hlisted & _).
  rewrite (Hlisted twelve_collections _ eq_refl eq_refl). reflexivity.
Defined.

(** X19.  The report says "Connected" exactly when the import succeeded and
    [db] is not [None], also when the listing of the collections then
    fails; in every other case it says "Not Connected". *)
Theorem report_connection_status (W : World) (imported : db_import) :
  (Report.connection_status (test_database W imported) = "Connected" ↔
   ∃ db, imported = Imported (Some db)) ∧
  (Report.connection_status (test_database W imported) = "Connected" ∨
   Report.connection_status (test_database W imported) = "Not Connected").
Proof.
  destruct imported as [[db|]| |]; cbn.
  - destruct (Database.list_collection_names db); cbn; (split; [|auto]);
      (split; [eauto|reflexivity]).
  - split; [|auto]. split; [discriminate|]. intros (db & [=]).
  - split; [|auto]. split; [discriminate|]. intros (db & [=]).
  - split; [|auto]. split; [discriminate|]. intros (db & [=]).
Qed.

(** X20.  When the listing of the collections raises, or the import raises
    something other than an [ImportError], the exception does not leave
    [test_database]: the [database] message ends with [str(e)[:50]], the
    first 50 characters (code points) of the message, and no collection is
    listed. *)
Theorem report_truncates_errors (W : World) (imported : db_import) (e : exn) :
  (imported = ImportFailed e ∨
   ∃ db, imported = Imported (Some db) ∧ Database.list_collection_names db = Raise e) →
  ∃ label excerpt,
    Report.database (test_database W imported) = label +:+ excerpt ∧
    (label = "❌ Error: " ∨ label = "⚠️  Connected but Error: ") ∧
    excerpt = str_take 50 (exn_str e) ∧
    String.prefix excerpt (exn_str e) = true ∧
    str_len excerpt ≤ 50 ∧
    (str_len (exn_str e) ≤ 50 → excerpt = exn_str e) ∧
    Report.collections (test_database W imported) = [].
Proof.
  intros [-> | (db & -> & Hlist)].
  - eexists _, _. split; [reflexivity|]. split; [auto|]. split; [reflexivity|].
    split; [apply prefix_str_take|]. split; [apply str_len_take|].
    split; [apply str_take_all|reflexivity].
  - unfold test_database. rewrite Hlist.
    eexists _, _. split; [reflexivity|]. split; [auto|]. split; [reflexivity|].
    split; [apply prefix_str_take|]. split; [apply str_len_take|].
    split; [apply str_take_all|reflexivity].
Qed.

Lemma report_truncates_errors_witness :
  Report.database
    (test_database (Demo.world ∅ (Return Demo.html_200) (Return "6543f0"))
                   (Imported (Some unreachable_database)))
  = "⚠️  Connected but Error: server selection timed out".
Proof.
  destruct (report_truncates_errors
              (Demo.world ∅ (Return Demo.html_200) (Return "6543f0"))
              (Imported (Some unreachable_database))
              (OtherError "server selection timed out"))
    as (label & excerpt & Hdb & _).
  - right. exists unreachable_database. split; reflexivity.
  - reflexivity.
Defined.

(** An excerpt counts characters, not bytes: of a body of 201 characters in
    402 bytes, the detail keeps the first 200 characters in 400 bytes. *)
Example excerpt_counts_characters :
  str_len (Response.text Demo.accented_500) = 201 ∧
  String.length (Response.text Demo.accented_500) = 402 ∧
  ∃ r log,
    run (submit_attendance
           (Demo.world Demo.forwarding (Return Demo.accented_500) (Return "6543f0"))
           Demo.at_office) = (Return r, log) ∧
    Data.apps_script_error (Result.data r)
    = Some ("Apps Script HTTP 500: " +:+ Demo.copies 200 "é").
Proof. split; [reflexivity|]. split; [reflexivity|]. eexists _, _. split; reflexivity. Qed.
